(** * rag-med: the retrieval-augmented answering pipeline

    A shallow embedding of [backend/rag_pipeline.py], [backend/memory.py] and
    the upload validation of [backend/main.py].

    Python text is modelled as [string], read as a sequence of code points
    below 256.  The module-level globals ([_vectorstore], [_qa_chain],
    [_global_memory]) and the persisted directory [data/vectorstore] form an
    explicit state that is threaded through a state-and-exception monad.  The
    external collaborators (document readers, embedding service, language
    model, text splitter) are fields of an environment record. *)

From Stdlib Require Import String Ascii List Bool Arith Lia.
Import ListNotations.
Open Scope string_scope.
Open Scope nat_scope.

(** ** Python values shared by every module *)

Module Py.

(** An exception object: its class name and the text [str(e)] yields. *)
Record Exn := mkExn { exn_class : string; exn_msg : string }.

(** What a call yields: a value, or a raised exception. *)
Inductive Outcome (A : Type) : Type :=
| Ok (a : A)
| Raise (e : Exn).
Arguments Ok {A} a.
Arguments Raise {A} e.

Definition is_ok {A} (o : Outcome A) : bool :=
  match o with Ok _ => true | Raise _ => false end.

(** [str.isspace] on one code point below 256: TAB..CR, FS..US, space,
    NEL (0x85) and NBSP (0xA0). *)
Definition isspace (c : ascii) : bool :=
  let n := nat_of_ascii c in
  ((9 <=? n) && (n <=? 13)) || ((28 <=? n) && (n <=? 32))
  || (n =? 133) || (n =? 160).

(** Truth value of [text.strip()]: some character is not white space. *)
Fixpoint strip_nonempty (s : string) : bool :=
  match s with
  | EmptyString => false
  | String c r => negb (isspace c) || strip_nonempty r
  end.

(** [str.lower] on one code point: only [A]..[Z] are modelled as cased.  No
    other code point lowers to a letter occurring in the extension tables
    of this program. *)
Definition lower_char (c : ascii) : ascii :=
  let n := nat_of_ascii c in
  if (65 <=? n) && (n <=? 90) then ascii_of_nat (n + 32) else c.

Fixpoint lower (s : string) : string :=
  match s with
  | EmptyString => EmptyString
  | String c r => String (lower_char c) (lower r)
  end.

(** [s.rfind(c)] as an option: position of the last occurrence. *)
Fixpoint rfind (c : ascii) (s : string) : option nat :=
  match s with
  | EmptyString => None
  | String a r =>
      match rfind c r with
      | Some i => Some (S i)
      | None => if Ascii.eqb a c then Some 0 else None
      end
  end.

(** [s.split(sep)] for a one-character separator. *)
Fixpoint split_on (sep : ascii) (s : string) : list string :=
  match s with
  | EmptyString => [EmptyString]
  | String c r =>
      if Ascii.eqb c sep then EmptyString :: split_on sep r
      else match split_on sep r with
           | [] => [String c EmptyString]
           | h :: t => String c h :: t
           end
  end.

(** [dict.get(key)] on a dictionary literal. *)
Fixpoint dict_get {V : Type} (key : string) (d : list (string * V)) : option V :=
  match d with
  | [] => None
  | (k, v) :: r => if String.eqb key k then Some v else dict_get key r
  end.

(** [key in {...}] on a set literal. *)
Definition set_mem (key : string) (s : list string) : bool :=
  existsb (String.eqb key) s.

End Py.
Export Py.

(** ** [pathlib] on POSIX *)

Module Pathlib.

(** A parsed path: whether it is rooted, and its components. *)
Record Path := mkPath { anchored : bool; parts : list string }.

Definition slash : ascii := "/"%char.
Definition dot : ascii := "."%char.

(** Components that survive parsing: empty ones and ["."] are dropped. *)
Definition keep_part (p : string) : bool :=
  negb (String.eqb p "") && negb (String.eqb p ".").

Definition starts_with_slash (s : string) : bool :=
  match s with
  | String c _ => Ascii.eqb c slash
  | EmptyString => false
  end.

(** Well-formed components: kept by parsing, and free of separators
    (splitting one gives it back). *)
Definition clean (ps : list string) : Prop :=
  Forall (fun p => keep_part p = true /\ split_on slash p = [p]) ps.

(** [Path(s)] *)
Definition parse (s : string) : Path :=
  {| anchored := starts_with_slash s;
     parts := filter keep_part (split_on slash s) |}.

(** [str(p)] *)
Definition to_str (p : Path) : string :=
  match anchored p, parts p with
  | false, [] => "."
  | false, ps => String.concat "/" ps
  | true, ps => "/" ++ String.concat "/" ps
  end.

(** [a / s]: a rooted right operand replaces the left one. *)
Definition join (a : Path) (s : string) : Path :=
  let b := parse s in
  if anchored b then b
  else {| anchored := anchored a; parts := (parts a ++ parts b)%list |}.

(** [p.name]: the final component, empty when there is none. *)
Definition name (p : Path) : string := last (parts p) "".

(** [p.suffix]: the part of the name from its last dot, unless that dot
    is the first or the last character of the name. *)
Definition suffix (p : Path) : string :=
  let nm := name p in
  match rfind dot nm with
  | Some i =>
      if (0 <? i) && (i <? String.length nm - 1)
      then substring i (String.length nm - i) nm
      else ""
  | None => ""
  end.

End Pathlib.

(** ** [backend/memory.py] and [backend/rag_pipeline.py] *)

Module Rag.

Definition newline : string := String (ascii_of_nat 10) EmptyString.

(** [langchain.schema.Document] *)
Record Document := mkDocument {
  page_content : string;
  metadata : list (string * string)
}.

(** A message held by the conversation buffer. *)
Inductive Message :=
| HumanMessage (content : string)
| AIMessage (content : string).

(** What the retrieval chain hands back: [result["answer"]] and
    [result["source_documents"]]. *)
Record ChainResult := mkChainResult {
  chain_answer : string;
  source_documents : list Document
}.

(** The collaborators of one call.  Every field stands for code outside
    the repository; a reader or a service may fail by raising. *)
Record Env := mkEnv {
  (* pdfplumber: the text of each page, [None] or empty when it has none *)
  pdf_pages : string -> Outcome (list (option string));
  (* python-docx: the paragraphs' texts *)
  docx_paragraphs : string -> Outcome (list string);
  (* pypandoc.convert_file(path, 'plain', format='rtf') *)
  pandoc_plain : string -> Outcome string;
  (* open(path, 'r', encoding='utf-8').read() *)
  read_utf8 : string -> Outcome string;
  (* text_splitter.split_text *)
  split_text : string -> list string;
  (* GoogleGenerativeAIEmbeddings(...) *)
  new_embeddings : Outcome unit;
  (* embedding the texts of a batch that is being added to the index *)
  embed_documents : list string -> Outcome unit;
  (* ChatGoogleGenerativeAI(...) *)
  new_llm : Outcome unit;
  (* retrieval and generation of the chain, from the chat history, the
     content of the index and the question *)
  chain_run : list Message -> list Document -> string -> Outcome ChainResult
}.

(** The interpreter's iteration order over a [set] of strings.  Python
    promises only that every element is visited once; the order follows
    the hashes, which change with the hash seed of the process. *)
Record Runtime := mkRuntime {
  set_order : list string -> list string;
  set_order_NoDup : forall l, NoDup (set_order l);
  set_order_In : forall l x, In x (set_order l) <-> In x l
}.

(** A [Chroma] object: a handle on the collection kept in its directory. *)
Inductive Chroma := ChromaStore (persist_directory : string).

(** A [ConversationalRetrievalChain]: it refers to the vector store it
    retrieves from and to the global memory. *)
Inductive Chain := RetrievalChain (vectorstore : Chroma) (k : nat).

(** The module globals and the persisted directory.  [vectorstore_dir] is
    [None] when [data/vectorstore] does not exist, and otherwise holds the
    entries of the collection stored there. *)
Record State := mkState {
  _vectorstore : option Chroma;
  _qa_chain : option Chain;
  _global_memory : option (list Message);
  vectorstore_dir : option (list Document)
}.

Definition VECTORSTORE_PATH : string := "data/vectorstore".
Definition CHUNK_SIZE : nat := 1000.
Definition CHUNK_OVERLAP : nat := 200.

(** *** State and exceptions *)

Definition M (A : Type) : Type := State -> State * Outcome A.

Definition ret {A} (a : A) : M A := fun s => (s, Ok a).

Definition raise {A} (e : Exn) : M A := fun s => (s, Raise e).

Definition bind {A B} (m : M A) (k : A -> M B) : M B :=
  fun s =>
    match m s with
    | (s', Ok a) => k a s'
    | (s', Raise e) => (s', Raise e)
    end.

(** [try: m except Exception as e: h e] *)
Definition try_except {A} (m : M A) (h : Exn -> M A) : M A :=
  fun s =>
    match m s with
    | (s', Ok a) => (s', Ok a)
    | (s', Raise e) => h e s'
    end.

Definition lift {A} (o : Outcome A) : M A := fun s => (s, o).

Definition get : M State := fun s => (s, Ok s).

Definition modify (f : State -> State) : M unit := fun s => (f s, Ok tt).

Notation "x <- m ;; k" := (bind m (fun x => k))
  (at level 61, m at next level, right associativity).
Notation "m ;; k" := (bind m (fun _ => k))
  (at level 61, right associativity).

Definition set_vectorstore (v : option Chroma) (s : State) : State :=
  mkState v (_qa_chain s) (_global_memory s) (vectorstore_dir s).

Definition set_qa_chain (c : option Chain) (s : State) : State :=
  mkState (_vectorstore s) c (_global_memory s) (vectorstore_dir s).

Definition set_global_memory (m : option (list Message)) (s : State) : State :=
  mkState (_vectorstore s) (_qa_chain s) m (vectorstore_dir s).

Definition set_vectorstore_dir (d : option (list Document)) (s : State) : State :=
  mkState (_vectorstore s) (_qa_chain s) (_global_memory s) d.

(** *** memory.py *)

(** The messages of the buffer; none before it is created. *)
Definition messages (s : State) : list Message :=
  match _global_memory s with
  | Some ms => ms
  | None => []
  end.

(** [get_memory()]: creates the buffer on first use. *)
Definition get_memory : M unit :=
  modify (fun s =>
    match _global_memory s with
    | None => set_global_memory (Some []) s
    | Some _ => s
    end).

(** [clear_memory()] *)
Definition clear_memory : M unit :=
  modify (fun s =>
    match _global_memory s with
    | Some _ => set_global_memory (Some []) s
    | None => s
    end).

(** [memory.save_context({"question": q}, {"answer": a})] *)
Definition save_context (question answer : string) : M unit :=
  modify (fun s =>
    set_global_memory
      (Some (messages s ++ [HumanMessage question; AIMessage answer])%list) s).

(** [add_to_memory(question, answer)] *)
Definition add_to_memory (question answer : string) : M unit :=
  get_memory ;; save_context question answer.

(** *** Extractors *)

(** Each extractor catches every exception of its reader and then
    returns the empty text. *)
Definition extract_text_from_pdf (env : Env) (file_path : string) : string :=
  match pdf_pages env file_path with
  | Ok pages =>
      fold_left
        (fun text page =>
           match page with
           | Some page_text =>
               if String.eqb page_text "" then text
               else text ++ page_text ++ newline
           | None => text
           end)
        pages ""
  | Raise _ => ""
  end.

Definition extract_text_from_docx (env : Env) (file_path : string) : string :=
  match docx_paragraphs env file_path with
  | Ok paragraphs => String.concat newline paragraphs
  | Raise _ => ""
  end.

Definition extract_text_from_rtf (env : Env) (file_path : string) : string :=
  match pandoc_plain env file_path with
  | Ok text => text
  | Raise _ => ""
  end.

Definition extract_text_from_txt (env : Env) (file_path : string) : string :=
  match read_utf8 env file_path with
  | Ok text => text
  | Raise _ => ""
  end.

Definition extractors : list (string * (Env -> string -> string)) :=
  [ (".pdf", extract_text_from_pdf);
    (".docx", extract_text_from_docx);
    (".rtf", extract_text_from_rtf);
    (".txt", extract_text_from_txt) ].

(** [extract_text_from_file(file_path)]: the pair [(text, filename)]. *)
Definition extract_text_from_file (env : Env) (file_path : string)
  : string * string :=
  let file_path := Pathlib.parse file_path in
  let extension := lower (Pathlib.suffix file_path) in
  match dict_get extension extractors with
  | Some extractor =>
      (extractor env (Pathlib.to_str file_path), Pathlib.name file_path)
  | None => ("", Pathlib.name file_path)
  end.

(** *** Ingestion *)

(** The loop over [file_paths]: a file contributes a document only when
    its text has a character that is not white space. *)
Fixpoint collect_documents (env : Env) (file_paths : list string)
  : list Document :=
  match file_paths with
  | [] => []
  | file_path :: rest =>
      let '(text, filename) := extract_text_from_file env file_path in
      if strip_nonempty text
      then mkDocument text [("source", filename)]
             :: collect_documents env rest
      else collect_documents env rest
  end.

(** [text_splitter.split_documents]: every chunk inherits the metadata of
    the document it was cut from. *)
Definition split_documents (env : Env) (documents : list Document)
  : list Document :=
  flat_map
    (fun d => map (fun t => mkDocument t (metadata d))
                  (split_text env (page_content d)))
    documents.

(** The entries of the collection; none when the directory is absent. *)
Definition index_entries (s : State) : list Document :=
  match vectorstore_dir s with
  | Some entries => entries
  | None => []
  end.

Definition index_size (s : State) : nat := length (index_entries s).

(** A [Chroma] object built on a directory works on the collection stored
    there: [query_rag] builds one on [data/vectorstore] to load what an
    earlier run persisted.  The client opens the collection with
    get-or-create, so entries already stored are kept and an absent
    directory is created. *)
Definition open_collection : M unit :=
  modify (fun s => set_vectorstore_dir (Some (index_entries s)) s).

(** [add_documents(chunks)]: the whole batch is embedded first, so a
    failing embedding adds nothing. *)
Definition add_documents (env : Env) (chunks : list Document) : M unit :=
  lift (embed_documents env (map page_content chunks)) ;;
  modify (fun s =>
    set_vectorstore_dir (Some (index_entries s ++ chunks)%list) s).

(** [Chroma(persist_directory=..., embedding_function=...)] *)
Definition Chroma_open (persist_directory : string) : M Chroma :=
  open_collection ;;
  ret (ChromaStore persist_directory).

(** [Chroma.from_documents(documents, embedding, persist_directory)]:
    builds the [Chroma] object on the directory, then adds the documents
    to its collection. *)
Definition Chroma_from_documents (env : Env) (documents : list Document)
    (persist_directory : string) : M Chroma :=
  store <- Chroma_open persist_directory ;;
  add_documents env documents ;;
  ret store.

(** [create_qa_chain(vectorstore)] *)
Definition create_qa_chain (env : Env) (vectorstore : Chroma) : M Chain :=
  lift (new_llm env) ;;
  get_memory ;;
  ret (RetrievalChain vectorstore 4).

(** The dictionary returned by [process_documents]. *)
Record Stats := mkStats {
  status : string;
  documents_processed : nat;
  chunks_count : nat
}.

Definition no_text_error : Exn :=
  mkExn "ValueError" "No text content extracted from uploaded files".

(** [process_documents(file_paths)].  Its handler logs and raises the
    exception again. *)
Definition process_documents (env : Env) (file_paths : list string) : M Stats :=
  try_except
    (let documents := collect_documents env file_paths in
     match documents with
     | [] => raise no_text_error
     | _ :: _ =>
         let chunks := split_documents env documents in
         lift (new_embeddings env) ;;
         st <- get ;;
         store <- match _vectorstore st with
                  | Some store => add_documents env chunks ;; ret store
                  | None =>
                      store <- Chroma_from_documents env chunks VECTORSTORE_PATH ;;
                      modify (set_vectorstore (Some store)) ;;
                      ret store
                  end ;;
         chain <- create_qa_chain env store ;;
         modify (set_qa_chain (Some chain)) ;;
         ret (mkStats "success" (length documents) (length chunks))
     end)
    (fun e => raise e).

(** *** Query *)

(** The dictionary returned by [query_rag]. *)
Record QueryResult := mkQueryResult {
  answer : string;
  sources : list string
}.

Definition no_documents_result : QueryResult :=
  mkQueryResult
    "No documents have been uploaded yet. Please upload documents first."
    [].

Definition error_result (e : Exn) : QueryResult :=
  mkQueryResult ("An error occurred: " ++ exn_msg e) [].

Definition not_callable : Exn :=
  mkExn "TypeError" "'NoneType' object is not callable".

(** [_qa_chain({"question": question})].  The chain reads the history,
    retrieves and generates, and saves the turn only once that has
    returned: a failure leaves the memory as it was. *)
Definition call_chain (env : Env) (question : string) : M ChainResult :=
  st <- get ;;
  match _qa_chain st with
  | None => raise not_callable
  | Some _ =>
      result <- lift (chain_run env (messages st) (index_entries st) question) ;;
      save_context question (chain_answer result) ;;
      ret result
  end.

(** [doc.metadata.get("source", "Unknown")] *)
Definition source_of (doc : Document) : string :=
  match dict_get "source" (metadata doc) with
  | Some name => name
  | None => "Unknown"
  end.

(** Lines 252 to 262: query the chain, then extract the sources. *)
Definition answer_from_chain (rt : Runtime) (env : Env) (question : string)
  : M QueryResult :=
  result <- call_chain env question ;;
  let sources := map source_of (source_documents result) in
  ret (mkQueryResult (chain_answer result) (set_order rt sources)).

(** The body of the [try] block of [query_rag]. *)
Definition query_body (rt : Runtime) (env : Env) (question : string)
  : M QueryResult :=
  st <- get ;;
  match _vectorstore st with
  | None =>
      match vectorstore_dir st with
      | Some _ =>
          lift (new_embeddings env) ;;
          store <- Chroma_open VECTORSTORE_PATH ;;
          modify (set_vectorstore (Some store)) ;;
          chain <- create_qa_chain env store ;;
          modify (set_qa_chain (Some chain)) ;;
          answer_from_chain rt env question
      | None => ret no_documents_result
      end
  | Some _ => answer_from_chain rt env question
  end.

(** [query_rag(question)] *)
Definition query_rag (rt : Runtime) (env : Env) (question : string)
  : M QueryResult :=
  try_except (query_body rt env question)
             (fun e => ret (error_result e)).

(** The state once [query_rag] has loaded a persisted index: the store is
    opened, the chain is built on it and the memory buffer exists. *)
Definition loaded (st : State) : State :=
  set_qa_chain (Some (RetrievalChain (ChromaStore VECTORSTORE_PATH) 4))
    (fst (get_memory
      (set_vectorstore (Some (ChromaStore VECTORSTORE_PATH))
         (set_vectorstore_dir (Some (index_entries st)) st)))).

(** [reset_vectorstore()] *)
Definition reset_vectorstore : M unit :=
  modify (set_vectorstore None) ;;
  modify (set_qa_chain None) ;;
  st <- get ;;
  match vectorstore_dir st with
  | Some _ => modify (set_vectorstore_dir None)
  | None => ret tt
  end.

End Rag.

(** ** The upload boundary of [backend/main.py] *)

Module Main.
Import Rag.

Definition UPLOAD_DIR : Pathlib.Path := Pathlib.parse "data/uploads".

Definition allowed_extensions : list string :=
  [".pdf"; ".docx"; ".rtf"; ".png"; ".txt"].

(** [Path(file.filename).suffix.lower()] *)
Definition file_ext (filename : string) : string :=
  lower (Pathlib.suffix (Pathlib.parse filename)).

(** The validation of one uploaded file. *)
Definition upload_allowed (filename : string) : bool :=
  set_mem (file_ext filename) allowed_extensions.

(** [str(UPLOAD_DIR / file.filename)] *)
Definition saved_path (filename : string) : string :=
  Pathlib.to_str (Pathlib.join UPLOAD_DIR filename).

Definition http_exception (status_code detail : string) : Exn :=
  mkExn "HTTPException" (status_code ++ ": " ++ detail).

(** The set literal as an f-string prints it. *)
Definition show_set (rt : Runtime) (l : list string) : string :=
  "{" ++ String.concat ", " (map (fun x => "'" ++ x ++ "'") (set_order rt l))
      ++ "}".

(** The loop of [upload_files]: validate, save, remember the path.
    [save] stands for copying the upload to its path. *)
Fixpoint save_uploads (rt : Runtime) (save : string -> Outcome unit)
    (filenames : list string) : Outcome (list string) :=
  match filenames with
  | [] => Ok []
  | filename :: rest =>
      if upload_allowed filename then
        match save (saved_path filename) with
        | Ok _ =>
            match save_uploads rt save rest with
            | Ok paths => Ok (saved_path filename :: paths)
            | Raise e => Raise e
            end
        | Raise e => Raise e
        end
      else
        Raise (http_exception "400"
                 ("File type " ++ file_ext filename ++ " not supported. Allowed: "
                  ++ show_set rt allowed_extensions))
  end.


(** The body of a successful upload response. *)
Record UploadResponse := mkUploadResponse {
  upload_status : string;
  files_uploaded : nat;
  files : list string;
  chunks_created : nat;
  message : string
}.

(** [upload_files(files)]: every exception becomes a status 500. *)
Definition upload_files (rt : Runtime) (env : Env)
    (save : string -> Outcome unit) (filenames : list string)
  : M UploadResponse :=
  try_except
    (uploaded_files <- lift (save_uploads rt save filenames) ;;
     result <- process_documents env uploaded_files ;;
     ret (mkUploadResponse
            "success"
            (length uploaded_files)
            (map (fun f => Pathlib.name (Pathlib.parse f)) uploaded_files)
            (chunks_count result)
            "Documents processed and indexed successfully"))
    (fun e => raise (http_exception "500" (exn_msg e))).

End Main.

(** ** The chunker of the design *)

Module Chunker.

(** Modelled from the spec: the sliding-window chunker of the design; in
    the source the splitting is done by the text-splitter class of an
    external library, whose code is not in the repository.  The text is
    consumed in windows of [chunk_size] characters whose starts advance by
    [chunk_size - overlap]; the last window may be shorter.  [fuel] bounds
    the number of windows. *)
Fixpoint windows (fuel : nat) (chunk_size step start : nat) (text : string)
  : list string :=
  match fuel with
  | 0 => []
  | S fuel' =>
      if start <? String.length text then
        substring start chunk_size text
          :: windows fuel' chunk_size step (start + step) text
      else []
  end.

(** Modelled from the spec: [split(document, chunk_size, overlap)].  A text
    that fits in one window yields exactly one chunk. *)
Definition split (text : string) (chunk_size overlap : nat) : list string :=
  if String.length text <=? chunk_size then [text]
  else windows (S (String.length text)) chunk_size (chunk_size - overlap) 0 text.

(** The chunker with the sizes configured in the pipeline. *)
Definition split_configured (text : string) : list string :=
  split text Rag.CHUNK_SIZE Rag.CHUNK_OVERLAP.

(** Start offset of the chunk of a given sequence index. *)
Definition chunk_start (chunk_size overlap sequence_index : nat) : nat :=
  sequence_index * (chunk_size - overlap).

End Chunker.

(** ** Runs of several calls, and sample collaborators *)

Module Runs.
Import Rag.

(** Successive uploads, each with the collaborators it met; the total of
    the [chunks_count] they reported.  The run stops at a failing batch. *)
Fixpoint ingest_all (batches : list (Env * list string)) : M nat :=
  match batches with
  | [] => ret 0
  | (env, file_paths) :: rest =>
      stats <- process_documents env file_paths ;;
      total <- ingest_all rest ;;
      ret (chunks_count stats + total)
  end.

(** Successive queries; [query_rag] never raises, so the run collects
    every result. *)
Fixpoint query_all (rt : Runtime) (queries : list (Env * string))
  : M (list QueryResult) :=
  match queries with
  | [] => ret []
  | (env, question) :: rest =>
      r <- query_rag rt env question ;;
      rs <- query_all rt rest ;;
      ret (r :: rs)
  end.

(** The test [text.strip()] of the ingestion loop on one file. *)
Definition yields_text (env : Env) (file_path : string) : bool :=
  strip_nonempty (fst (extract_text_from_file env file_path)).

(** Lexicographic order of a list of strings, as [sorted] would leave it. *)
Fixpoint sorted_lex (l : list string) : bool :=
  match l with
  | [] => true
  | x :: r =>
      match r with
      | [] => true
      | y :: _ => String.leb x y && sorted_lex r
      end
  end.

(** An iteration order that Python allows: each element at the place of
    its last occurrence. *)
Definition keep_last_order : Runtime :=
  mkRuntime (nodup string_dec) (NoDup_nodup string_dec) (nodup_In string_dec).

Definition doc_from (source text : string) : Document :=
  mkDocument text [("source", source)].

(** Collaborators that all succeed: every text file holds a short note,
    the splitter keeps a text whole, and the chain retrieves chunks of
    [a.txt], [b.txt] and [a.txt] again. *)
Definition helpful_env : Env :=
  mkEnv (fun _ => Ok [Some "page one"; None; Some "page three"])
        (fun _ => Ok ["first paragraph"; "second paragraph"])
        (fun _ => Ok "plain text")
        (fun _ => Ok "a short note")
        (fun text => [text])
        (Ok tt)
        (fun _ => Ok tt)
        (Ok tt)
        (fun _ _ _ =>
           Ok (mkChainResult "The sky is blue."
                 [doc_from "a.txt" "grass"; doc_from "b.txt" "sky";
                  doc_from "a.txt" "green"])).

(** The same collaborators with a splitter that cuts after the first
    character. *)
Definition halving_env : Env :=
  mkEnv (pdf_pages helpful_env) (docx_paragraphs helpful_env)
        (pandoc_plain helpful_env) (read_utf8 helpful_env)
        (fun text =>
           match text with
           | String c r => [String c ""; r]
           | EmptyString => []
           end)
        (Ok tt) (fun _ => Ok tt) (Ok tt) (chain_run helpful_env).

Definition quota_exceeded : Exn := mkExn "ResourceExhausted" "429 quota exceeded".

(** The generation service refuses every request. *)
Definition failing_env : Env :=
  mkEnv (pdf_pages helpful_env) (docx_paragraphs helpful_env)
        (pandoc_plain helpful_env) (read_utf8 helpful_env)
        (split_text helpful_env)
        (Ok tt) (fun _ => Ok tt) (Ok tt)
        (fun _ _ _ => Raise quota_exceeded).

(** A chain whose retrieval follows the history: with earlier turns the
    question is rephrased before retrieval and other chunks come back. *)
Definition drifting_env : Env :=
  mkEnv (pdf_pages helpful_env) (docx_paragraphs helpful_env)
        (pandoc_plain helpful_env) (read_utf8 helpful_env)
        (split_text helpful_env)
        (Ok tt) (fun _ => Ok tt) (Ok tt)
        (fun history _ _ =>
           match history with
           | [] => Ok (mkChainResult "first" [doc_from "a.txt" "grass"])
           | _ :: _ => Ok (mkChainResult "second" [doc_from "b.txt" "sky"])
           end).

(** Every text file is empty. *)
Definition blank_env : Env :=
  mkEnv (pdf_pages helpful_env) (docx_paragraphs helpful_env)
        (pandoc_plain helpful_env) (fun _ => Ok "")
        (split_text helpful_env)
        (Ok tt) (fun _ => Ok tt) (Ok tt) (chain_run helpful_env).

(** A fresh process on a machine without a persisted index. *)
Definition cold_state : State := mkState None None None None.

(** A fresh process that finds one persisted entry. *)
Definition restarted_state : State :=
  mkState None None None (Some [doc_from "old.txt" "kept from an earlier run"]).

(** A process that has ingested two chunks and answered nothing yet. *)
Definition warm_state : State :=
  mkState (Some (ChromaStore VECTORSTORE_PATH))
          (Some (RetrievalChain (ChromaStore VECTORSTORE_PATH) 4))
          (Some [])
          (Some [doc_from "a.txt" "grass"; doc_from "b.txt" "sky"]).

End Runs.

(** ** The remaining entry points *)

Module Endpoints.
Import Rag Main.

(** [get_conversation_history()] of [memory.py]: the buffer is created on
    the way. *)
Definition get_conversation_history : M (list Message) :=
  get_memory ;;
  st <- get ;;
  ret (messages st).

(** Successive calls of [add_to_memory], one per question and answer. *)
Fixpoint add_all_to_memory (turns : list (string * string)) : M unit :=
  match turns with
  | [] => ret tt
  | (question, answer) :: rest =>
      add_to_memory question answer ;;
      add_all_to_memory rest
  end.

(** The messages that a list of questions and answers leaves in the
    buffer. *)
Definition turn_messages (turns : list (string * string)) : list Message :=
  flat_map (fun t => [HumanMessage (fst t); AIMessage (snd t)]) turns.

(** The page texts that [extract_text_from_pdf] keeps: those that are
    neither [None] nor empty. *)
Fixpoint page_texts (pages : list (option string)) : list string :=
  match pages with
  | [] => []
  | Some page_text :: rest =>
      if String.eqb page_text "" then page_texts rest
      else page_text :: page_texts rest
  | None :: rest => page_texts rest
  end.

(** [ChatResponse] of [main.py]; [chat_sources] is its field [sources]. *)
Record ChatResponse := mkChatResponse {
  response : string;
  chat_sources : list string
}.

(** [chat(request)]: the endpoint of [/chat], on [request.message]. *)
Definition chat (rt : Runtime) (env : Env) (message : string) : M ChatResponse :=
  try_except
    (if strip_nonempty message then
       response <- query_rag rt env message ;;
       ret (mkChatResponse (answer response) (sources response))
     else raise (http_exception "400" "Message cannot be empty"))
    (fun e => raise (http_exception "500" (exn_msg e))).

(** [clear_conversation()]: the endpoint of [/clear]. *)
Definition clear_conversation : M (string * string) :=
  try_except
    (clear_memory ;;
     ret ("success", "Conversation memory cleared"))
    (fun e => raise (http_exception "500" (exn_msg e))).

(** [generate_report()]: the endpoint of [/report].  [import_generator]
    stands for importing [create_report_pdf], whose module is not part of
    the sources at hand; the generator returns the path of the report. *)
Definition generate_report
    (import_generator : Outcome (list Message -> Outcome string)) : M string :=
  try_except
    (create_report_pdf <- lift import_generator ;;
     get_memory ;;
     st <- get ;;
     let conversation_history := messages st in
     match conversation_history with
     | [] => raise (http_exception "400"
                      "No conversation history to generate report")
     | _ :: _ => lift (create_report_pdf conversation_history)
     end)
    (fun e => raise (http_exception "500" (exn_msg e))).

(** The body of the [/health] response; [uploads] stands for the listing
    of the upload directory. *)
Record Health := mkHealth {
  health_status : string;
  vectorstore_exists : bool;
  conversation_messages : nat;
  uploads_count : nat
}.

(** [health_check()] *)
Definition health_check (uploads : list string) : M Health :=
  get_memory ;;
  st <- get ;;
  ret (mkHealth "healthy"
         (match vectorstore_dir st with Some _ => true | None => false end)
         (length (messages st))
         (length uploads)).

(** What the globals satisfy in every state the program reaches from its
    start: a chain is the one built, with [k = 4], on the store currently
    held, and exists only with the memory buffer; a store held by the
    process has its directory. *)
Definition consistent (st : State) : Prop :=
  (forall chain,
     _qa_chain st = Some chain ->
     exists store,
       _vectorstore st = Some store
       /\ chain = RetrievalChain store 4
       /\ _global_memory st <> None)
  /\ (forall store,
        _vectorstore st = Some store -> vectorstore_dir st <> None).

End Endpoints.

(** ** Further sample collaborators *)

Module Scenarios.
Import Rag Runs.

Definition unreadable : Exn := mkExn "UnicodeDecodeError" "invalid start byte".

(** Text files cannot be decoded. *)
Definition corrupt_env : Env :=
  mkEnv (pdf_pages helpful_env) (docx_paragraphs helpful_env)
        (pandoc_plain helpful_env) (fun _ => Raise unreadable)
        (split_text helpful_env)
        (Ok tt) (fun _ => Ok tt) (Ok tt) (chain_run helpful_env).

(** Every PDF is a scan: its pages carry no text. *)
Definition scanned_env : Env :=
  mkEnv (fun _ => Ok [None; Some ""; None]) (docx_paragraphs helpful_env)
        (pandoc_plain helpful_env) (read_utf8 helpful_env)
        (split_text helpful_env)
        (Ok tt) (fun _ => Ok tt) (Ok tt) (chain_run helpful_env).

(** The embedding service refuses every batch. *)
Definition offline_env : Env :=
  mkEnv (pdf_pages helpful_env) (docx_paragraphs helpful_env)
        (pandoc_plain helpful_env) (read_utf8 helpful_env)
        (split_text helpful_env)
        (Ok tt) (fun _ => Raise quota_exceeded) (Ok tt)
        (chain_run helpful_env).

Definition missing_key : Exn := mkExn "ValidationError" "API key required".

(** The language model cannot be constructed. *)
Definition no_llm_env : Env :=
  mkEnv (pdf_pages helpful_env) (docx_paragraphs helpful_env)
        (pandoc_plain helpful_env) (read_utf8 helpful_env)
        (split_text helpful_env)
        (Ok tt) (fun _ => Ok tt) (Raise missing_key)
        (chain_run helpful_env).

Definition missing_module : Exn :=
  mkExn "ModuleNotFoundError" "No module named 'report_generator'".

(** A chain that answers with the number of messages it was shown. *)
Definition counting_env : Env :=
  mkEnv (pdf_pages helpful_env) (docx_paragraphs helpful_env)
        (pandoc_plain helpful_env) (read_utf8 helpful_env)
        (split_text helpful_env)
        (Ok tt) (fun _ => Ok tt) (Ok tt)
        (fun history _ _ =>
           Ok (mkChainResult
                 (match history with
                  | [] => "no earlier turn"
                  | _ :: _ => "some earlier turn"
                  end)
                 [])).

(** A process in which the chain could not be built after the chunks had
    been stored. *)
Definition chainless_state : State :=
  mkState (Some (ChromaStore VECTORSTORE_PATH)) None None
          (Some [doc_from "a.txt" "grass"]).

(** A process that has answered one question. *)
Definition talkative_state : State :=
  mkState (Some (ChromaStore VECTORSTORE_PATH))
          (Some (RetrievalChain (ChromaStore VECTORSTORE_PATH) 4))
          (Some [HumanMessage "What colour is grass?"; AIMessage "Green."])
          (Some [doc_from "a.txt" "grass"; doc_from "b.txt" "sky"]).

End Scenarios.

(** * Properties *)

(** ** Running the monad *)

Module RagFacts.
Import Rag.

Ltac run :=
  unfold query_rag, query_body, answer_from_chain, call_chain,
         process_documents, Chroma_from_documents, Chroma_open,
         open_collection, add_documents, create_qa_chain, reset_vectorstore,
         get_memory, save_context,
         try_except, bind, ret, raise, lift, get, modify in *;
  simpl in *.

Lemma messages_set_vectorstore v s : messages (set_vectorstore v s) = messages s.
Proof. reflexivity. Qed.

Lemma messages_set_qa_chain c s : messages (set_qa_chain c s) = messages s.
Proof. reflexivity. Qed.

Lemma messages_set_vectorstore_dir d s :
  messages (set_vectorstore_dir d s) = messages s.
Proof. reflexivity. Qed.

(** Creating the buffer does not change what it holds. *)
Lemma messages_get_memory s : messages (fst (get_memory s)) = messages s.
Proof.
  unfold get_memory, modify, messages; simpl.
  destruct (_global_memory s) eqn:E; simpl; rewrite ?E; reflexivity.
Qed.

Lemma index_entries_open s : index_entries (fst (open_collection s)) = index_entries s.
Proof. reflexivity. Qed.

(** [query_rag] is its body with every exception turned into a result. *)
Lemma query_rag_unfold rt env question st :
  query_rag rt env question st =
  match query_body rt env question st with
  | (st', Ok r) => (st', Ok r)
  | (st', Raise e) => (st', Ok (error_result e))
  end.
Proof. reflexivity. Qed.

(** The chain call, path by path. *)
Lemma call_chain_unfold env question st :
  call_chain env question st =
  match _qa_chain st with
  | None => (st, Raise not_callable)
  | Some _ =>
      match chain_run env (messages st) (index_entries st) question with
      | Ok result =>
          (set_global_memory
             (Some (messages st
                    ++ [HumanMessage question; AIMessage (chain_answer result)])%list)
             st,
           Ok result)
      | Raise e => (st, Raise e)
      end
  end.
Proof.
  run. destruct (_qa_chain st); [|reflexivity].
  destruct (chain_run env (messages st) (index_entries st) question); reflexivity.
Qed.

(** A failing chain call leaves the state alone. *)
Lemma call_chain_raise env question st st' e :
  call_chain env question st = (st', Raise e) -> st' = st.
Proof.
  rewrite call_chain_unfold.
  destruct (_qa_chain st); [|congruence].
  destruct (chain_run env (messages st) (index_entries st) question); congruence.
Qed.

Lemma answer_from_chain_unfold rt env question st :
  answer_from_chain rt env question st =
  match call_chain env question st with
  | (st', Ok result) =>
      (st', Ok (mkQueryResult (chain_answer result)
                  (set_order rt (map source_of (source_documents result)))))
  | (st', Raise e) => (st', Raise e)
  end.
Proof. reflexivity. Qed.

(** With an index in process memory the body is the chain call. *)
Lemma query_body_hot rt env question st v :
  _vectorstore st = Some v ->
  query_body rt env question st = answer_from_chain rt env question st.
Proof. intros H. unfold query_body, bind, get. rewrite H. reflexivity. Qed.

(** With a persisted index only, the body loads it first. *)
Lemma query_body_warm rt env question st d :
  _vectorstore st = None -> vectorstore_dir st = Some d ->
  query_body rt env question st =
  match new_embeddings env with
  | Raise e => (st, Raise e)
  | Ok _ =>
      match new_llm env with
      | Raise e =>
          (set_vectorstore (Some (ChromaStore VECTORSTORE_PATH))
             (set_vectorstore_dir (Some (index_entries st)) st), Raise e)
      | Ok _ => answer_from_chain rt env question (loaded st)
      end
  end.
Proof.
  intros Hv Hd. unfold query_body, bind, get. rewrite Hv, Hd.
  unfold lift. destruct (new_embeddings env); [|reflexivity].
  unfold Chroma_open, open_collection, create_qa_chain, bind, modify, ret, lift.
  destruct (new_llm env); reflexivity.
Qed.

Lemma query_body_cold rt env question st :
  _vectorstore st = None -> vectorstore_dir st = None ->
  query_body rt env question st = (st, Ok no_documents_result).
Proof. intros Hv Hd. unfold query_body, bind, get. rewrite Hv, Hd. reflexivity. Qed.

Lemma messages_loaded st : messages (loaded st) = messages st.
Proof.
  unfold loaded. rewrite messages_set_qa_chain, messages_get_memory. reflexivity.
Qed.

Lemma index_entries_loaded st : index_entries (loaded st) = index_entries st.
Proof.
  unfold loaded, get_memory, modify; simpl.
  destruct (_global_memory st); reflexivity.
Qed.

End RagFacts.

(** ** The query state machine *)

Module QueryFacts.
Import Rag Runs RagFacts.

(** C1.  In the Cold state (no index in process memory, no persisted
    directory) [query_rag] returns the fixed "no documents" answer with
    empty sources, and the whole state, the conversation memory included,
    is what it was. *)
Theorem query_rag_cold rt env question st :
  _vectorstore st = None ->
  vectorstore_dir st = None ->
  query_rag rt env question st = (st, Ok no_documents_result)
  /\ answer no_documents_result
     = "No documents have been uploaded yet. Please upload documents first."
  /\ sources no_documents_result = [].
Proof.
  intros Hv Hd. rewrite query_rag_unfold, (query_body_cold _ _ _ _ Hv Hd).
  repeat split.
Qed.

Lemma query_rag_cold_witness :
  query_rag keep_last_order helpful_env "What colour is the sky?" cold_state
  = (cold_state, Ok no_documents_result)
  /\ answer no_documents_result
     = "No documents have been uploaded yet. Please upload documents first."
  /\ sources no_documents_result = [].
Proof.
  apply (query_rag_cold keep_last_order helpful_env
           "What colour is the sky?" cold_state); reflexivity.
Defined.

(** A raising body never changes the messages of the memory. *)
Lemma query_body_raise_messages rt env question st st' e :
  query_body rt env question st = (st', Raise e) ->
  messages st' = messages st.
Proof.
  destruct (_vectorstore st) as [v|] eqn:Hv.
  - rewrite (query_body_hot _ _ _ _ _ Hv), answer_from_chain_unfold.
    destruct (call_chain env question st) as [s1 [r|e1]] eqn:Hc; [discriminate|].
    intros H; inversion H; subst.
    now rewrite (call_chain_raise _ _ _ _ _ Hc).
  - destruct (vectorstore_dir st) as [d|] eqn:Hd.
    + rewrite (query_body_warm _ _ _ _ _ Hv Hd).
      destruct (new_embeddings env); [|intros H; now inversion H].
      destruct (new_llm env); [|intros H; now inversion H].
      rewrite answer_from_chain_unfold.
      destruct (call_chain env question (loaded st)) as [s1 [r|e1]] eqn:Hc;
        [discriminate|].
      intros H; inversion H; subst.
      rewrite (call_chain_raise _ _ _ _ _ Hc). apply messages_loaded.
    + rewrite (query_body_cold _ _ _ _ Hv Hd). discriminate.
Qed.

(** C2.  [query_rag] never raises: it always returns a result.  Whenever
    its body raised [e], the result is the inline error answer built from
    [str(e)], with empty sources; this is in particular so when the chain's
    retrieval or generation fails, or when the embedding client cannot be
    built while a persisted index is being loaded. *)
Theorem query_rag_never_raises rt env question st :
  (exists st' r, query_rag rt env question st = (st', Ok r))
  /\ (forall st' e,
        query_body rt env question st = (st', Raise e) ->
        query_rag rt env question st = (st', Ok (error_result e))
        /\ answer (error_result e) = "An error occurred: " ++ exn_msg e
        /\ sources (error_result e) = [])
  /\ (forall v c e,
        _vectorstore st = Some v -> _qa_chain st = Some c ->
        chain_run env (messages st) (index_entries st) question = Raise e ->
        query_rag rt env question st = (st, Ok (error_result e)))
  /\ (forall d e,
        _vectorstore st = None -> vectorstore_dir st = Some d ->
        new_embeddings env = Raise e ->
        query_rag rt env question st = (st, Ok (error_result e))).
Proof.
  repeat split.
  - rewrite query_rag_unfold.
    destruct (query_body rt env question st) as [s1 [r|e]]; eauto.
  - rewrite query_rag_unfold, H. reflexivity.
  - intros v c e Hv Hc Hr.
    rewrite query_rag_unfold, (query_body_hot _ _ _ _ _ Hv),
      answer_from_chain_unfold, call_chain_unfold, Hc, Hr.
    reflexivity.
  - intros d e Hv Hd He.
    rewrite query_rag_unfold, (query_body_warm _ _ _ _ _ Hv Hd), He.
    reflexivity.
Qed.

Lemma query_rag_never_raises_witness :
  query_rag keep_last_order failing_env "What colour is the sky?" warm_state
  = (warm_state, Ok (mkQueryResult "An error occurred: 429 quota exceeded" [])).
Proof.
  apply (proj1 (proj2 (proj2
    (query_rag_never_raises keep_last_order failing_env
       "What colour is the sky?" warm_state)))
    (ChromaStore VECTORSTORE_PATH)
    (RetrievalChain (ChromaStore VECTORSTORE_PATH) 4)
    quota_exceeded); reflexivity.
Defined.

End QueryFacts.

(** ** Sources and memory of a query *)

Module TurnFacts.
Import Rag Runs RagFacts QueryFacts.

(** A query that succeeds on an existing index: its result is read off the
    chain's result, and the turn is appended to the memory. *)
Lemma query_body_ok rt env question st st' r :
  query_body rt env question st = (st', Ok r) ->
  _vectorstore st <> None \/ vectorstore_dir st <> None ->
  exists result,
    chain_run env (messages st) (index_entries st) question = Ok result
    /\ r = mkQueryResult (chain_answer result)
             (set_order rt (map source_of (source_documents result)))
    /\ messages st'
       = (messages st
          ++ [HumanMessage question; AIMessage (chain_answer result)])%list.
Proof.
  intros Hq Hidx.
  destruct (_vectorstore st) as [v|] eqn:Hv.
  - rewrite (query_body_hot _ _ _ _ _ Hv), answer_from_chain_unfold,
      call_chain_unfold in Hq.
    destruct (_qa_chain st); [|discriminate].
    destruct (chain_run env (messages st) (index_entries st) question)
      as [result|e]; [|discriminate].
    inversion Hq; subst. exists result. repeat split.
  - destruct (vectorstore_dir st) as [d|] eqn:Hd.
    + rewrite (query_body_warm _ _ _ _ _ Hv Hd) in Hq.
      destruct (new_embeddings env); [|discriminate].
      destruct (new_llm env); [|discriminate].
      rewrite answer_from_chain_unfold, call_chain_unfold in Hq.
      rewrite messages_loaded, index_entries_loaded in Hq.
      change (_qa_chain (loaded st))
        with (Some (RetrievalChain (ChromaStore VECTORSTORE_PATH) 4)) in Hq.
      destruct (chain_run env (messages st) (index_entries st) question)
        as [result|e]; [|discriminate].
      inversion Hq; subst. exists result. repeat split.
    + destruct Hidx as [H|H]; congruence.
Qed.

(** C3, as the code has it.  A query that succeeds on an existing index
    returns every retrieved chunk's source name exactly once: the list has
    no duplicate and holds the same names as the retrieved chunks.  It is
    the interpreter's iteration over the set of these names, so it is
    determined by the retrieved names (two calls that retrieve the same
    chunks return the same list), but no sorting takes place. *)
Theorem sources_deduplicated rt env question st st' r :
  query_body rt env question st = (st', Ok r) ->
  _vectorstore st <> None \/ vectorstore_dir st <> None ->
  exists result,
    chain_run env (messages st) (index_entries st) question = Ok result
    /\ query_rag rt env question st = (st', Ok r)
    /\ answer r = chain_answer result
    /\ NoDup (sources r)
    /\ (forall s, In s (sources r)
                  <-> exists d, In d (source_documents result) /\ source_of d = s)
    /\ sources r = set_order rt (map source_of (source_documents result)).
Proof.
  intros Hq Hidx.
  destruct (query_body_ok _ _ _ _ _ _ Hq Hidx) as (result & Hrun & Hr & _).
  exists result. subst r; simpl.
  repeat split; auto.
  - rewrite query_rag_unfold, Hq. reflexivity.
  - apply set_order_NoDup.
  - intros Hin. apply set_order_In, in_map_iff in Hin.
    destruct Hin as (d & Hd & Hin). eauto.
  - intros (d & Hin & Hd). apply set_order_In, in_map_iff. eauto.
Qed.

Lemma sources_deduplicated_witness :
  exists result,
    chain_run helpful_env (messages warm_state) (index_entries warm_state)
      "What colour is the sky?" = Ok result
    /\ NoDup ["b.txt"; "a.txt"]
    /\ (forall s, In s ["b.txt"; "a.txt"]
                  <-> exists d, In d (source_documents result) /\ source_of d = s).
Proof.
  destruct (sources_deduplicated keep_last_order helpful_env
              "What colour is the sky?" warm_state
              (set_global_memory
                 (Some [HumanMessage "What colour is the sky?";
                        AIMessage "The sky is blue."]) warm_state)
              (mkQueryResult "The sky is blue." ["b.txt"; "a.txt"]))
    as (result & Hrun & _ & _ & Hnd & Hin & _).
  - reflexivity.
  - left. discriminate.
  - exists result. auto.
Defined.

(** C3 as stated fails.  With the chain retrieving chunks of [a.txt],
    [b.txt] and [a.txt], an interpreter that iterates the set as
    [b.txt], [a.txt] makes [query_rag] return exactly that list, which is
    not in lexicographic order.  And when the chain's retrieval follows the
    chat history, asking the same question twice on an unchanged index
    returns different sources. *)
Lemma sources_sorted_counterexample :
  (exists st1,
     query_rag keep_last_order helpful_env "What colour is the sky?" warm_state
     = (st1, Ok (mkQueryResult "The sky is blue." ["b.txt"; "a.txt"]))
     /\ sorted_lex ["b.txt"; "a.txt"] = false)
  /\ (exists st1 st2,
        query_rag keep_last_order drifting_env "What colour is the sky?" warm_state
        = (st1, Ok (mkQueryResult "first" ["a.txt"]))
        /\ index_entries st1 = index_entries warm_state
        /\ query_rag keep_last_order drifting_env "What colour is the sky?" st1
           = (st2, Ok (mkQueryResult "second" ["b.txt"]))).
Proof.
  split.
  - eexists. split; reflexivity.
  - do 2 eexists. repeat split.
Qed.

(** C4, as the code has it.  When the body of a query raises, [query_rag]
    returns the inline error result and the memory holds exactly the
    messages it held before: nothing is appended for the failed turn.  A
    query that succeeds on an existing index appends two messages, the
    question and the answer. *)
Theorem failed_turn_not_recorded rt env question st :
  (forall st' e,
     query_body rt env question st = (st', Raise e) ->
     query_rag rt env question st = (st', Ok (error_result e))
     /\ messages st' = messages st)
  /\ (forall st' r,
        query_body rt env question st = (st', Ok r) ->
        _vectorstore st <> None \/ vectorstore_dir st <> None ->
        messages st'
        = (messages st ++ [HumanMessage question; AIMessage (answer r)])%list).
Proof.
  split.
  - intros st' e Hq. split.
    + rewrite query_rag_unfold, Hq. reflexivity.
    + eapply query_body_raise_messages; eauto.
  - intros st' r Hq Hidx.
    destruct (query_body_ok _ _ _ _ _ _ Hq Hidx) as (result & _ & Hr & Hm).
    subst r. exact Hm.
Qed.

Lemma failed_turn_not_recorded_witness :
  query_rag keep_last_order failing_env "What colour is the sky?" warm_state
  = (warm_state, Ok (error_result quota_exceeded))
  /\ messages warm_state = messages warm_state.
Proof.
  apply (proj1 (failed_turn_not_recorded keep_last_order failing_env
                  "What colour is the sky?" warm_state)
           warm_state quota_exceeded).
  reflexivity.
Defined.

(** C4 as stated fails.  From the same state, a query whose generation
    fails leaves the memory with the messages it had, while a query that
    succeeds leaves it with two more. *)
Lemma failed_turn_counterexample :
  exists st_failed st_answered r_failed r_answered,
    query_rag keep_last_order failing_env "What colour is the sky?" warm_state
    = (st_failed, Ok r_failed)
    /\ query_rag keep_last_order helpful_env "What colour is the sky?" warm_state
       = (st_answered, Ok r_answered)
    /\ sources r_failed = []
    /\ length (messages st_failed) = length (messages warm_state)
    /\ length (messages st_answered) = length (messages warm_state) + 2.
Proof.
  do 4 eexists. repeat split.
Qed.

End TurnFacts.

(** ** Ingestion *)

Module IngestFacts.
Import Rag Runs RagFacts.

Ltac split_cases :=
  repeat match goal with
         | H : context [match ?x with _ => _ end] |- _ => destruct x eqn:?
         | H : (_, _) = (_, _) |- _ => inversion H; clear H; subst
         end.

(** What one call of [process_documents] does to the index: it only ever
    appends, and a call that returns has appended exactly its chunks. *)
Lemma process_documents_appends env file_paths st st' o :
  process_documents env file_paths st = (st', o) ->
  (exists added,
     index_entries st' = (index_entries st ++ added)%list)
  /\ (forall stats,
        o = Ok stats ->
        index_entries st'
        = (index_entries st
           ++ split_documents env (collect_documents env file_paths))%list
        /\ chunks_count stats
           = length (split_documents env (collect_documents env file_paths))
        /\ documents_processed stats
           = length (collect_documents env file_paths)
        /\ _vectorstore st' <> None
        /\ vectorstore_dir st' <> None).
Proof.
  intros H. run.
  remember (collect_documents env file_paths) as documents.
  destruct documents as [|d ds]; simpl in H.
  - inversion H; subst. split.
    + exists []. now rewrite app_nil_r.
    + discriminate.
  - remember (split_documents env (d :: ds)) as chunks.
    split_cases; simpl;
      (split;
       [ first [ exists []; now rewrite app_nil_r | eexists; reflexivity ]
       | intros stats Hs; inversion Hs; subst; simpl;
         repeat split; congruence ]).
Qed.

(** The files enter [process_documents] only through the documents
    collected from them. *)
Lemma process_documents_ext env file_paths file_paths' st :
  collect_documents env file_paths = collect_documents env file_paths' ->
  process_documents env file_paths st = process_documents env file_paths' st.
Proof.
  intros H. unfold process_documents, try_except. now rewrite H.
Qed.

Lemma collect_documents_app env l1 l2 :
  collect_documents env (l1 ++ l2)
  = (collect_documents env l1 ++ collect_documents env l2)%list.
Proof.
  induction l1 as [|p l1 IH]; simpl; [reflexivity|].
  destruct (extract_text_from_file env p) as [text filename].
  destruct (strip_nonempty text); simpl; now rewrite IH.
Qed.

Lemma collect_documents_filter env file_paths :
  collect_documents env (filter (yields_text env) file_paths)
  = collect_documents env file_paths.
Proof.
  induction file_paths as [|p l IH]; simpl; [reflexivity|].
  unfold yields_text at 1.
  destruct (extract_text_from_file env p) as [text filename] eqn:E; simpl.
  destruct (strip_nonempty text) eqn:B; simpl; [|exact IH].
  rewrite E, B, IH. reflexivity.
Qed.

Lemma collect_documents_length env file_paths :
  length (collect_documents env file_paths)
  = length (filter (yields_text env) file_paths).
Proof.
  induction file_paths as [|p l IH]; simpl; [reflexivity|].
  unfold yields_text at 1.
  destruct (extract_text_from_file env p) as [text filename]; simpl.
  destruct (strip_nonempty text); simpl; now rewrite IH.
Qed.

(** A file without text contributes no document. *)
Lemma collect_documents_skip env before file_path after :
  yields_text env file_path = false ->
  collect_documents env (before ++ file_path :: after)
  = collect_documents env (before ++ after).
Proof.
  intros H. rewrite !collect_documents_app. f_equal. simpl.
  unfold yields_text in H.
  destruct (extract_text_from_file env file_path) as [text filename].
  simpl in H. now rewrite H.
Qed.

(** C5, as the code has it.  A call of [process_documents] never removes
    or rebuilds entries: the index afterwards is the index before followed
    by what the call added.  A call that returns has appended exactly its
    chunks, so the index has grown by the reported [chunks_count] and its
    directory exists; when no persisted directory existed before, the
    index holds exactly the new chunks.  When the process holds no index
    but a persisted directory exists, the chunks are appended to the
    persisted entries.  Over a run of calls that all return, the index
    size is the size at the start plus the total of the chunk counts. *)
Theorem index_grows_by_batches :
  (forall env file_paths st st' o,
     process_documents env file_paths st = (st', o) ->
     exists added, index_entries st' = (index_entries st ++ added)%list)
  /\ (forall env file_paths st st' stats,
        process_documents env file_paths st = (st', Ok stats) ->
        index_entries st'
        = (index_entries st
           ++ split_documents env (collect_documents env file_paths))%list
        /\ index_size st' = index_size st + chunks_count stats
        /\ vectorstore_dir st' <> None
        /\ (vectorstore_dir st = None ->
            index_entries st'
            = split_documents env (collect_documents env file_paths)
            /\ index_size st' = chunks_count stats))
  /\ (forall batches st st' total,
        ingest_all batches st = (st', Ok total) ->
        index_size st' = index_size st + total).
Proof.
  split; [|split].
  - intros env fs st st' o H.
    exact (proj1 (process_documents_appends _ _ _ _ _ H)).
  - intros env fs st st' stats H.
    destruct (proj2 (process_documents_appends _ _ _ _ _ H) stats eq_refl)
      as (He & Hc & _ & _ & Hd).
    assert (Hsize : index_size st' = index_size st + chunks_count stats).
    { unfold index_size. rewrite He, length_app, Hc. reflexivity. }
    split; [exact He|]. split; [exact Hsize|]. split; [exact Hd|].
    intros Hn.
    assert (Hempty : index_entries st = []).
    { unfold index_entries. now rewrite Hn. }
    unfold index_size in Hsize. rewrite Hempty in He, Hsize.
    split; [exact He | exact Hsize].
  - induction batches as [|[env fs] rest IH]; intros st st' total H.
    + inversion H; subst. lia.
    + simpl in H. unfold bind in H.
      destruct (process_documents env fs st) as [s1 [stats|e]] eqn:Hp;
        [|discriminate].
      destruct (ingest_all rest s1) as [s2 [n|e]] eqn:Hr; [|discriminate].
      inversion H; subst.
      apply IH in Hr.
      destruct (proj2 (process_documents_appends _ _ _ _ _ Hp) stats eq_refl)
        as (He & Hc & _).
      unfold index_size in *. rewrite Hr, He, length_app, Hc. lia.
Qed.

Lemma index_grows_by_batches_witness :
  index_size
    (fst (ingest_all
            [(helpful_env, ["data/uploads/a.txt"]);
             (halving_env, ["data/uploads/b.txt"; "data/uploads/c.png"])]
            cold_state))
  = index_size cold_state + 3.
Proof.
  apply (proj2 (proj2 index_grows_by_batches)
           [(helpful_env, ["data/uploads/a.txt"]);
            (halving_env, ["data/uploads/b.txt"; "data/uploads/c.png"])]
           cold_state).
  reflexivity.
Defined.

(** C5 as stated fails.  A process that holds no index in memory but finds
    a persisted one (the state after a restart) does not end up with an
    index of exactly the new chunks: the one new chunk is appended to the
    persisted entry. *)
Lemma new_index_counterexample :
  _vectorstore restarted_state = None
  /\ exists st' stats,
       process_documents helpful_env ["data/uploads/notes.txt"] restarted_state
       = (st', Ok stats)
       /\ chunks_count stats = 1
       /\ split_documents helpful_env
            (collect_documents helpful_env ["data/uploads/notes.txt"])
          = [doc_from "notes.txt" "a short note"]
       /\ index_entries st'
          = [doc_from "old.txt" "kept from an earlier run";
             doc_from "notes.txt" "a short note"]
       /\ index_entries st' <> [doc_from "notes.txt" "a short note"].
Proof.
  split; [reflexivity|].
  do 2 eexists. repeat split. discriminate.
Qed.

(** C7.  After [reset_vectorstore()] the persisted directory is gone and
    the index and the chain held by the process are cleared.  Every query
    made from then on, until documents are added, returns the "no
    documents" answer with empty sources and changes nothing.  A call of
    [process_documents] that then returns leaves an index holding exactly
    the new chunks, of size [chunks_count]. *)
Theorem reset_starts_afresh st :
  let st0 := fst (reset_vectorstore st) in
  vectorstore_dir st0 = None
  /\ _vectorstore st0 = None
  /\ _qa_chain st0 = None
  /\ (forall rt queries,
        query_all rt queries st0
        = (st0, Ok (repeat no_documents_result (length queries)))
        /\ Forall (fun r => sources r = [])
                  (repeat no_documents_result (length queries)))
  /\ (forall env file_paths st1 stats,
        process_documents env file_paths st0 = (st1, Ok stats) ->
        index_entries st1
        = split_documents env (collect_documents env file_paths)
        /\ index_size st1 = chunks_count stats).
Proof.
  assert (Hd : vectorstore_dir (fst (reset_vectorstore st)) = None).
  { unfold reset_vectorstore, bind, modify, get, ret; simpl.
    destruct (vectorstore_dir st) eqn:E; simpl; auto. }
  assert (Hv : _vectorstore (fst (reset_vectorstore st)) = None).
  { unfold reset_vectorstore, bind, modify, get, ret; simpl.
    destruct (vectorstore_dir st); reflexivity. }
  assert (Hc : _qa_chain (fst (reset_vectorstore st)) = None).
  { unfold reset_vectorstore, bind, modify, get, ret; simpl.
    destruct (vectorstore_dir st); reflexivity. }
  cbv zeta. set (st0 := fst (reset_vectorstore st)) in *.
  repeat split; auto.
  - induction queries as [|[env q] rest IH]; [reflexivity|].
    simpl. unfold bind.
    rewrite query_rag_unfold, (query_body_cold _ _ _ _ Hv Hd), IH.
    reflexivity.
  - apply Forall_forall. intros r Hr. apply repeat_spec in Hr. now subst.
  - destruct (proj2 (process_documents_appends _ _ _ _ _ H) stats eq_refl)
      as (He & _).
    rewrite He. unfold index_entries at 1. now rewrite Hd.
  - destruct (proj2 (process_documents_appends _ _ _ _ _ H) stats eq_refl)
      as (He & Hn & _).
    unfold index_size. rewrite He, Hn. unfold index_entries at 1.
    now rewrite Hd.
Qed.

Lemma reset_starts_afresh_witness :
  index_entries
    (fst (process_documents halving_env ["data/uploads/b.txt"]
            (fst (reset_vectorstore warm_state))))
  = split_documents halving_env
      (collect_documents halving_env ["data/uploads/b.txt"])
  /\ index_size
       (fst (process_documents halving_env ["data/uploads/b.txt"]
               (fst (reset_vectorstore warm_state))))
     = 2.
Proof.
  apply (proj2 (proj2 (proj2 (proj2 (reset_starts_afresh warm_state))))
           halving_env ["data/uploads/b.txt"] _ (mkStats "success" 1 2)).
  reflexivity.
Defined.

End IngestFacts.

(** ** Paths and extraction *)

Module ExtractFacts.
Import Rag Runs Main RagFacts IngestFacts.
Import Pathlib.

Example suffix_report : suffix (parse "data/uploads/Report.PDF") = ".PDF".
Proof. reflexivity. Qed.

Example suffix_hidden : suffix (parse "data/uploads/.bashrc") = "".
Proof. reflexivity. Qed.

Example suffix_trailing_dot : suffix (parse "notes.") = "".
Proof. reflexivity. Qed.

Example name_of_directory : name (parse "/data/./uploads//") = "uploads".
Proof. reflexivity. Qed.

Example join_relative :
  to_str (join (parse "data/uploads") "scan.png") = "data/uploads/scan.png".
Proof. reflexivity. Qed.

Example join_rooted : to_str (join (parse "data/uploads") "/tmp/x.txt") = "/tmp/x.txt".
Proof. reflexivity. Qed.

Example extract_pdf :
  extract_text_from_file helpful_env "data/uploads/Report.PDF"
  = ("page one" ++ newline ++ "page three" ++ newline, "Report.PDF").
Proof. reflexivity. Qed.

Example extract_docx :
  extract_text_from_file helpful_env "data/uploads/letter.docx"
  = ("first paragraph" ++ newline ++ "second paragraph", "letter.docx").
Proof. reflexivity. Qed.

Example upload_two_files :
  exists st',
    upload_files keep_last_order helpful_env (fun _ => Ok tt)
      ["scan.png"; "notes.txt"] cold_state
    = (st', Ok (mkUploadResponse "success" 2 ["scan.png"; "notes.txt"] 1
                  "Documents processed and indexed successfully"))
    /\ index_entries st' = [doc_from "notes.txt" "a short note"].
Proof. eexists. split; reflexivity. Qed.

Example upload_only_png :
  upload_files keep_last_order helpful_env (fun _ => Ok tt) ["scan.png"] cold_state
  = (cold_state,
     Raise (http_exception "500"
              "No text content extracted from uploaded files")).
Proof. reflexivity. Qed.

Example upload_refused :
  upload_allowed "setup.exe" = false
  /\ exists detail,
       upload_files keep_last_order helpful_env (fun _ => Ok tt)
         ["setup.exe"] cold_state
       = (cold_state, Raise (http_exception "500" detail)).
Proof. split; [reflexivity | eexists; reflexivity]. Qed.

(** *** Splitting and joining on the separator *)

Lemma split_on_not_nil sep s : split_on sep s <> [].
Proof.
  destruct s as [|c r]; simpl; [discriminate|].
  destruct (Ascii.eqb c sep); [discriminate|].
  destruct (split_on sep r); discriminate.
Qed.

(** A piece produced by splitting holds no separator: splitting it again
    gives the piece itself. *)
Lemma split_on_piece sep s p :
  In p (split_on sep s) -> split_on sep p = [p].
Proof.
  revert p. induction s as [|c r IH]; simpl; intros p Hin.
  - destruct Hin as [<-|[]]. reflexivity.
  - destruct (Ascii.eqb c sep) eqn:Ec.
    + destruct Hin as [<-|Hin]; [reflexivity | now apply IH].
    + destruct (split_on sep r) as [|h t] eqn:Er.
      * destruct Hin as [<-|[]]. simpl. now rewrite Ec.
      * destruct Hin as [<-|Hin].
        -- simpl. rewrite Ec, (IH h (or_introl eq_refl)). reflexivity.
        -- apply IH. now right.
Qed.

Lemma split_on_append sep p r :
  split_on sep p = [p] ->
  split_on sep (p ++ String sep r) = p :: split_on sep r.
Proof.
  induction p as [|c p IH]; simpl; intros Hp.
  - now rewrite Ascii.eqb_refl.
  - destruct (Ascii.eqb c sep); [discriminate|].
    destruct (split_on sep p) as [|h t] eqn:Ep.
    + exfalso. now apply (split_on_not_nil sep p).
    + inversion Hp; subst. now rewrite IH.
Qed.

Lemma split_on_concat sep ps :
  ps <> [] ->
  Forall (fun p => split_on sep p = [p]) ps ->
  split_on sep (String.concat (String sep "") ps) = ps.
Proof.
  induction ps as [|p ps IH]; [congruence|].
  intros _ Hall. inversion Hall as [|? ? Hp Hps]; subst.
  destruct ps as [|q ps].
  - exact Hp.
  - change (String.concat (String sep "") (p :: q :: ps))
      with (p ++ String sep (String.concat (String sep "") (q :: ps))).
    rewrite (split_on_append _ _ _ Hp), IH; [reflexivity|discriminate|exact Hps].
Qed.

(** *** Paths survive printing and parsing *)

Lemma parse_clean s : clean (parts (parse s)).
Proof.
  apply Forall_forall. intros p Hin. simpl in Hin.
  apply filter_In in Hin. destruct Hin as [Hin Hk].
  split; [exact Hk | exact (split_on_piece _ _ _ Hin)].
Qed.

Lemma filter_keep_clean ps : clean ps -> filter keep_part ps = ps.
Proof.
  induction 1 as [|p ps [Hk _] _ IH]; simpl; [reflexivity|].
  now rewrite Hk, IH.
Qed.

Lemma clean_pieces ps :
  clean ps -> Forall (fun p => split_on slash p = [p]) ps.
Proof. intros H. eapply Forall_impl; [|exact H]. now intros p [_ Hp]. Qed.

Lemma clean_not_rooted p :
  keep_part p = true -> split_on slash p = [p] -> starts_with_slash p = false.
Proof.
  destruct p as [|c p]; [discriminate|]. simpl. intros _ Hp.
  destruct (Ascii.eqb c slash); [discriminate|reflexivity].
Qed.

Lemma clean_head_not_rooted p s :
  keep_part p = true -> split_on slash p = [p] ->
  starts_with_slash (p ++ s) = false.
Proof.
  destruct p as [|c p]; [discriminate|]. simpl. intros _ Hp.
  destruct (Ascii.eqb c slash); [discriminate|reflexivity].
Qed.

Lemma parse_to_str p : clean (parts p) -> parse (to_str p) = p.
Proof.
  destruct p as [a ps]; simpl. intros Hc.
  assert (Hsplit : ps <> [] ->
            filter keep_part (split_on slash (String.concat "/" ps)) = ps).
  { intros Hne.
    change "/" with (String slash "").
    rewrite split_on_concat; [|exact Hne|now apply clean_pieces].
    now apply filter_keep_clean. }
  destruct a.
  - unfold to_str, parse; simpl anchored; simpl parts.
    change ("/" ++ String.concat "/" ps) with (String slash (String.concat "/" ps)).
    cbn [starts_with_slash split_on]. rewrite Ascii.eqb_refl. f_equal.
    destruct ps as [|q ps]; [reflexivity|].
    cbn [filter keep_part String.eqb negb andb]. apply Hsplit. discriminate.
  - destruct ps as [|q ps]; [reflexivity|].
    unfold to_str, parse; simpl anchored; simpl parts. f_equal.
    + inversion Hc as [|? ? [Hk Hq] _]; subst.
      destruct ps as [|q' ps].
      * simpl. now apply clean_not_rooted.
      * change (String.concat "/" (q :: q' :: ps))
          with (q ++ String slash (String.concat "/" (q' :: ps))).
        now apply clean_head_not_rooted.
    + apply Hsplit. discriminate.
Qed.

Lemma join_clean a s : clean (parts a) -> clean (parts (join a s)).
Proof.
  intros Ha. unfold join.
  destruct (anchored (parse s)); [apply parse_clean|].
  simpl parts. apply Forall_app. split; [exact Ha | apply parse_clean].
Qed.

Lemma last_app_nonempty {A} (l1 l2 : list A) d :
  l2 <> [] -> last (l1 ++ l2) d = last l2 d.
Proof.
  intros Hne. induction l1 as [|x l1 IH]; [reflexivity|].
  simpl. rewrite IH. destruct (l1 ++ l2)%list eqn:E; [|reflexivity].
  apply app_eq_nil in E. now destruct E.
Qed.

(** A file saved under the upload directory keeps its name. *)
Lemma saved_path_name filename :
  name (parse filename) <> "" ->
  name (parse (saved_path filename)) = name (parse filename).
Proof.
  intros Hn. unfold saved_path.
  rewrite parse_to_str by (apply join_clean, parse_clean).
  unfold join. destruct (anchored (parse filename)); [reflexivity|].
  unfold name in *; cbn [parts].
  destruct (parts (parse filename)) as [|q qs] eqn:Eq; [now elim Hn|].
  rewrite last_app_nonempty; [reflexivity|discriminate].
Qed.

Lemma suffix_name_nonempty p : suffix p <> "" -> name p <> "".
Proof.
  unfold suffix. intros Hs Hn. rewrite Hn in Hs. now apply Hs.
Qed.

(** *** The dispatch on the extension *)

Lemma dict_get_none {V} key (d : list (string * V)) :
  ~ In key (map fst d) -> dict_get key d = None.
Proof.
  induction d as [|[k v] d IH]; simpl; intros Hn; [reflexivity|].
  destruct (String.eqb key k) eqn:E.
  - apply String.eqb_eq in E. subst. elim Hn. now left.
  - apply IH. intros Hin. apply Hn. now right.
Qed.

(** C8.  For a path whose extension, in lower case as the dispatch reads
    it, is none of [.pdf], [.docx], [.rtf], [.txt], the extractor returns
    the empty text together with the file's name; the model being a total
    function, nothing is raised.  Such a file therefore fails the text
    test of the ingestion loop and is left out of the batch. *)
Theorem unsupported_extension_empty env file_path :
  ~ In (lower (suffix (parse file_path))) [".pdf"; ".docx"; ".rtf"; ".txt"] ->
  extract_text_from_file env file_path = ("", name (parse file_path))
  /\ yields_text env file_path = false
  /\ (forall before after,
        collect_documents env (before ++ file_path :: after)
        = collect_documents env (before ++ after)).
Proof.
  intros Hn.
  assert (He : extract_text_from_file env file_path
               = ("", name (parse file_path))).
  { unfold extract_text_from_file.
    now rewrite (dict_get_none _ extractors Hn). }
  assert (Hy : yields_text env file_path = false).
  { unfold yields_text. now rewrite He. }
  repeat split; auto.
  intros before after. now apply collect_documents_skip.
Qed.

Lemma unsupported_extension_empty_witness :
  extract_text_from_file helpful_env "data/uploads/figure.JPEG"
  = ("", "figure.JPEG")
  /\ yields_text helpful_env "data/uploads/figure.JPEG" = false
  /\ (forall before after,
        collect_documents helpful_env
          (before ++ "data/uploads/figure.JPEG" :: after)
        = collect_documents helpful_env (before ++ after)).
Proof.
  apply (unsupported_extension_empty helpful_env "data/uploads/figure.JPEG").
  vm_compute. intros H.
  repeat (destruct H as [H|H]; [discriminate H|]). exact H.
Defined.

(** C9, as the code has it.  A file whose text is empty or blank is
    skipped: the call behaves as on the batch without such files.  If a
    file of the batch has text and the collaborators succeed, the call
    returns and reports as many documents as there are files with text.
    If no file of the batch has text, the call raises the [ValueError]
    "No text content extracted from uploaded files" and changes nothing. *)
Theorem blank_files_skipped env file_paths st :
  process_documents env file_paths st
  = process_documents env (filter (yields_text env) file_paths) st
  /\ (existsb (yields_text env) file_paths = true ->
      new_embeddings env = Ok tt ->
      (forall texts, embed_documents env texts = Ok tt) ->
      new_llm env = Ok tt ->
      exists st' stats,
        process_documents env file_paths st = (st', Ok stats)
        /\ documents_processed stats
           = length (filter (yields_text env) file_paths))
  /\ (existsb (yields_text env) file_paths = false ->
      process_documents env file_paths st = (st, Raise no_text_error)).
Proof.
  split; [|split].
  - apply process_documents_ext. symmetry. apply collect_documents_filter.
  - intros Hex Hemb Hadd Hllm.
    pose proof (collect_documents_length env file_paths) as Hlen.
    apply existsb_exists in Hex. destruct Hex as (p & Hin & Hp).
    assert (Hf : In p (filter (yields_text env) file_paths))
      by (apply filter_In; auto).
    destruct (collect_documents env file_paths) as [|d ds] eqn:Ec.
    { destruct (filter (yields_text env) file_paths); [elim Hf|discriminate]. }
    unfold process_documents, try_except, bind, lift, get.
    rewrite Ec, Hemb. rewrite <- Hlen.
    destruct (_vectorstore st) as [v|];
      unfold Chroma_from_documents, Chroma_open, open_collection,
             add_documents, create_qa_chain, get_memory,
             bind, lift, modify, ret;
      rewrite Hadd, Hllm; do 2 eexists; split; reflexivity.
  - intros Hex.
    assert (Hf : filter (yields_text env) file_paths = []).
    { destruct (filter (yields_text env) file_paths) as [|p l] eqn:Ef;
        [reflexivity|].
      assert (Hin : In p (filter (yields_text env) file_paths))
        by (rewrite Ef; now left).
      apply filter_In in Hin. destruct Hin as [Hin Hp].
      assert (existsb (yields_text env) file_paths = true)
        by (apply existsb_exists; eauto).
      congruence. }
    pose proof (collect_documents_length env file_paths) as Hlen.
    rewrite Hf in Hlen.
    destruct (collect_documents env file_paths) eqn:Ec; [|discriminate].
    unfold process_documents, try_except. now rewrite Ec.
Qed.

Lemma blank_files_skipped_witness :
  exists st' stats,
    process_documents helpful_env
      ["data/uploads/scan.png"; "data/uploads/notes.txt"] cold_state
    = (st', Ok stats)
    /\ documents_processed stats = 1.
Proof.
  apply (proj1 (proj2 (blank_files_skipped helpful_env
           ["data/uploads/scan.png"; "data/uploads/notes.txt"] cold_state)));
    reflexivity.
Defined.

(** C9 as stated fails.  A batch in which every file extracts to empty
    text aborts: [process_documents] raises its [ValueError], for a file
    type without extractor as for text files that are empty. *)
Lemma empty_batch_counterexample :
  extract_text_from_file helpful_env "data/uploads/scan.png" = ("", "scan.png")
  /\ process_documents helpful_env ["data/uploads/scan.png"] cold_state
     = (cold_state, Raise no_text_error)
  /\ process_documents blank_env
       ["data/uploads/a.txt"; "data/uploads/b.txt"] warm_state
     = (warm_state, Raise no_text_error).
Proof. repeat split. Qed.

(** C10.  A file whose extension reads [.png] passes the validation of
    the upload boundary, while the dispatch table of the extractor has no
    entry for [.png]: whatever the collaborators, extracting the saved
    file gives the empty text with the file's name, and the file adds
    nothing to what [process_documents] does with the batch. *)
Theorem png_accepted_not_extracted filename :
  file_ext filename = ".png" ->
  upload_allowed filename = true
  /\ dict_get ".png" extractors = None
  /\ (forall env,
        extract_text_from_file env (saved_path filename)
        = ("", name (parse filename))
        /\ yields_text env (saved_path filename) = false
        /\ (forall before after st,
              process_documents env (before ++ saved_path filename :: after) st
              = process_documents env (before ++ after) st)).
Proof.
  intros Hext.
  assert (Hname : name (parse (saved_path filename)) = name (parse filename)).
  { apply saved_path_name, suffix_name_nonempty.
    unfold file_ext in Hext. intros Hs. rewrite Hs in Hext. discriminate. }
  assert (Hsaved : lower (suffix (parse (saved_path filename))) = ".png").
  { unfold suffix in *. rewrite Hname. exact Hext. }
  split; [|split].
  - unfold upload_allowed. now rewrite Hext.
  - reflexivity.
  - intros env.
    assert (He : extract_text_from_file env (saved_path filename)
                 = ("", name (parse filename))).
    { unfold extract_text_from_file. rewrite Hsaved, Hname. reflexivity. }
    assert (Hy : yields_text env (saved_path filename) = false).
    { unfold yields_text. now rewrite He. }
    repeat split; auto.
    intros before after st. apply process_documents_ext.
    now apply collect_documents_skip.
Qed.

Lemma png_accepted_not_extracted_witness :
  upload_allowed "Scan 01.PNG" = true
  /\ dict_get ".png" extractors = None
  /\ (forall env,
        extract_text_from_file env (saved_path "Scan 01.PNG")
        = ("", name (parse "Scan 01.PNG"))
        /\ yields_text env (saved_path "Scan 01.PNG") = false
        /\ (forall before after st,
              process_documents env (before ++ saved_path "Scan 01.PNG" :: after) st
              = process_documents env (before ++ after) st)).
Proof.
  apply (png_accepted_not_extracted "Scan 01.PNG"). reflexivity.
Defined.

End ExtractFacts.

(** ** Coverage of the chunker *)

Module ChunkerFacts.
Import Chunker.

(** The scenario of the design: three overlapping chunks. *)
Example sky_and_grass :
  split "The sky is blue. Grass is green." 20 5
  = ["The sky is blue. Gra"; ". Grass is green."; "n."].
Proof. reflexivity. Qed.

Lemma substring_length s : forall n m,
  String.length (substring n m s) = Nat.min m (String.length s - n).
Proof.
  induction s as [|c s IH]; intros n m.
  - destruct n, m; reflexivity.
  - destruct n as [|n].
    + destruct m as [|m]; [reflexivity|]. simpl. now rewrite IH, Nat.sub_0_r.
    + simpl. apply IH.
Qed.

(** While fuel lasts, the window of index [k] is the slice that starts
    [k] steps after the first one. *)
Lemma windows_nth text chunk_size step : forall fuel start k,
  k < fuel ->
  start + k * step < String.length text ->
  nth_error (windows fuel chunk_size step start text) k
  = Some (substring (start + k * step) chunk_size text).
Proof.
  induction fuel as [|fuel IH]; intros start k Hk Hlt; [lia|].
  simpl.
  assert (Hs : (start <? String.length text) = true)
    by (apply Nat.ltb_lt; lia).
  rewrite Hs. destruct k as [|k]; simpl.
  - now rewrite Nat.add_0_r.
  - rewrite IH by (simpl in Hlt; lia). f_equal. f_equal. simpl. lia.
Qed.

(** Coverage for any sizes with a real advance: every position of the text
    lies in the chunk whose index is the position divided by the step, and
    that chunk carries the text's character there. *)
Lemma split_covers text chunk_size overlap i :
  overlap < chunk_size ->
  i < String.length text ->
  exists k chunk,
    nth_error (split text chunk_size overlap) k = Some chunk
    /\ chunk_start chunk_size overlap k <= i
    /\ i < chunk_start chunk_size overlap k + String.length chunk
    /\ String.get (i - chunk_start chunk_size overlap k) chunk
       = String.get i text.
Proof.
  intros Hov Hi. unfold split, chunk_start.
  destruct (String.length text <=? chunk_size) eqn:Hfit.
  - exists 0, text. simpl. rewrite Nat.sub_0_r. repeat split; lia.
  - apply Nat.leb_gt in Hfit.
    set (step := chunk_size - overlap).
    assert (Hstep : 0 < step) by (unfold step; lia).
    assert (Hle : step <= chunk_size) by (unfold step; lia).
    pose proof (Nat.div_mod_eq i step) as Hdiv.
    pose proof (Nat.mod_upper_bound i step ltac:(lia)) as Hmod.
    set (k := i / step) in *.
    assert (Hk : k * step <= i) by nia.
    assert (Hk' : i < k * step + step) by nia.
    exists k, (substring (k * step) chunk_size text).
    split; [|split; [|split]].
    + rewrite (windows_nth text chunk_size step (S (String.length text)) 0 k);
        [reflexivity | nia | simpl; lia].
    + exact Hk.
    + rewrite substring_length. lia.
    + rewrite substring_correct1 by lia. f_equal. lia.
Qed.

(** C6, for the chunker of the design with the configured sizes.  Every
    character of a text lies in one of the chunks: the chunk of some
    sequence index spans the character's position and carries the same
    character there.  A text of at most [CHUNK_SIZE] characters gives
    exactly one chunk, the text itself. *)
Theorem chunker_covers_text text :
  (forall i,
     i < String.length text ->
     exists k chunk,
       nth_error (split_configured text) k = Some chunk
       /\ chunk_start Rag.CHUNK_SIZE Rag.CHUNK_OVERLAP k <= i
       /\ i < chunk_start Rag.CHUNK_SIZE Rag.CHUNK_OVERLAP k + String.length chunk
       /\ String.get (i - chunk_start Rag.CHUNK_SIZE Rag.CHUNK_OVERLAP k) chunk
          = String.get i text)
  /\ (String.length text <= Rag.CHUNK_SIZE ->
      split_configured text = [text] /\ length (split_configured text) = 1).
Proof.
  split.
  - intros i Hi. apply split_covers; [|exact Hi].
    unfold Rag.CHUNK_OVERLAP, Rag.CHUNK_SIZE. lia.
  - intros Hfit. unfold split_configured, split.
    apply Nat.leb_le in Hfit. rewrite Hfit. split; reflexivity.
Qed.

Lemma chunker_covers_text_witness :
  (exists k chunk,
     nth_error (split_configured "The sky is blue. Grass is green.") k = Some chunk
     /\ chunk_start Rag.CHUNK_SIZE Rag.CHUNK_OVERLAP k <= 17
     /\ 17 < chunk_start Rag.CHUNK_SIZE Rag.CHUNK_OVERLAP k + String.length chunk
     /\ String.get (17 - chunk_start Rag.CHUNK_SIZE Rag.CHUNK_OVERLAP k) chunk
        = String.get 17 "The sky is blue. Grass is green.")
  /\ split_configured "The sky is blue. Grass is green."
     = ["The sky is blue. Grass is green."].
Proof.
  split.
  - apply (proj1 (chunker_covers_text "The sky is blue. Grass is green.") 17).
    simpl. lia.
  - apply (proj2 (chunker_covers_text "The sky is blue. Grass is green.")).
    unfold Rag.CHUNK_SIZE. simpl. lia.
Defined.

End ChunkerFacts.

(** ** Ingestion, path by path *)

Module PipelineFacts.
Import Rag Runs Main Endpoints RagFacts IngestFacts.

(** The state once a batch has been embedded and stored. *)
Lemma process_documents_unfold env file_paths st :
  process_documents env file_paths st =
  match collect_documents env file_paths with
  | [] => (st, Raise no_text_error)
  | d :: ds =>
      let chunks := split_documents env (d :: ds) in
      match new_embeddings env with
      | Raise e => (st, Raise e)
      | Ok _ =>
          match embed_documents env (map page_content chunks) with
          | Raise e =>
              (match _vectorstore st with
               | Some _ => st
               | None => set_vectorstore_dir (Some (index_entries st)) st
               end, Raise e)
          | Ok _ =>
              let store := match _vectorstore st with
                           | Some v => v
                           | None => ChromaStore VECTORSTORE_PATH
                           end in
              let st1 := set_vectorstore (Some store)
                           (set_vectorstore_dir
                              (Some (index_entries st ++ chunks)%list) st) in
              match new_llm env with
              | Raise e => (st1, Raise e)
              | Ok _ =>
                  (set_qa_chain (Some (RetrievalChain store 4))
                     (fst (get_memory st1)),
                   Ok (mkStats "success" (length (d :: ds)) (length chunks)))
              end
          end
      end
  end.
Proof.
  unfold process_documents, try_except.
  destruct (collect_documents env file_paths) as [|d ds]; [reflexivity|].
  cbv zeta. set (chunks := split_documents env (d :: ds)).
  unfold bind, lift, get.
  destruct (new_embeddings env); [|reflexivity].
  destruct st as [vs ch mem dir]; simpl.
  destruct vs as [v|];
    unfold Chroma_from_documents, Chroma_open, open_collection, add_documents,
           create_qa_chain, get_memory, bind, lift, modify, ret; simpl;
    destruct (embed_documents env (map page_content chunks)); simpl;
    try reflexivity;
    destruct (new_llm env); reflexivity.
Qed.

Lemma append_empty_r s : s ++ "" = s.
Proof. induction s as [|c s IH]; simpl; [reflexivity | now rewrite IH]. Qed.

Lemma append_assoc s1 s2 s3 : (s1 ++ s2) ++ s3 = s1 ++ (s2 ++ s3).
Proof. induction s1 as [|c s1 IH]; simpl; [reflexivity | now rewrite IH]. Qed.

Lemma concat_empty_cons x l : String.concat "" (x :: l) = x ++ String.concat "" l.
Proof.
  destruct l as [|y l]; simpl; [now rewrite append_empty_r | reflexivity].
Qed.

(** The file name returned by the extractor is always the path's name. *)
Lemma extract_name env file_path :
  snd (extract_text_from_file env file_path)
  = Pathlib.name (Pathlib.parse file_path).
Proof.
  unfold extract_text_from_file.
  destruct (dict_get _ extractors); reflexivity.
Qed.

(** A file whose text is blank is left out, wherever it stands. *)
Lemma blank_file_skipped env file_path :
  fst (extract_text_from_file env file_path) = "" ->
  forall before after st,
    process_documents env (before ++ file_path :: after) st
    = process_documents env (before ++ after) st.
Proof.
  intros He before after st. apply process_documents_ext.
  apply collect_documents_skip. unfold yields_text. now rewrite He.
Qed.

(** The loop over the pages, from any text gathered so far. *)
Lemma pdf_fold pages : forall acc,
  fold_left
    (fun text page =>
       match page with
       | Some page_text =>
           if String.eqb page_text "" then text
           else text ++ page_text ++ newline
       | None => text
       end)
    pages acc
  = acc ++ String.concat "" (map (fun t => t ++ newline) (page_texts pages)).
Proof.
  induction pages as [|[t|] pages IH]; intros acc; simpl.
  - now rewrite append_empty_r.
  - destruct (String.eqb t ""); [apply IH|].
    rewrite IH. cbn [map]. rewrite concat_empty_cons. now rewrite append_assoc.
  - apply IH.
Qed.

(** X1.  A supported file whose reader raises (a corrupt PDF or DOCX, a
    failing conversion, a text file that cannot be decoded) is extracted
    as the empty text with its name, and ingestion treats the batch as if
    the file were not in it. *)
Theorem failed_reader_skips_file env file_path e :
  let path := Pathlib.to_str (Pathlib.parse file_path) in
  let extension := lower (Pathlib.suffix (Pathlib.parse file_path)) in
  (extension = ".pdf" /\ pdf_pages env path = Raise e)
  \/ (extension = ".docx" /\ docx_paragraphs env path = Raise e)
  \/ (extension = ".rtf" /\ pandoc_plain env path = Raise e)
  \/ (extension = ".txt" /\ read_utf8 env path = Raise e) ->
  extract_text_from_file env file_path
  = ("", Pathlib.name (Pathlib.parse file_path))
  /\ (forall before after st,
        process_documents env (before ++ file_path :: after) st
        = process_documents env (before ++ after) st).
Proof.
  cbv zeta. intros H.
  assert (He : extract_text_from_file env file_path
               = ("", Pathlib.name (Pathlib.parse file_path))).
  { unfold extract_text_from_file.
    destruct H as [[Hx Hr]|[[Hx Hr]|[[Hx Hr]|[Hx Hr]]]]; rewrite Hx; simpl;
      unfold extract_text_from_pdf, extract_text_from_docx,
             extract_text_from_rtf, extract_text_from_txt;
      now rewrite Hr. }
  split; [exact He|].
  apply blank_file_skipped. now rewrite He.
Qed.

Lemma failed_reader_skips_file_witness :
  extract_text_from_file Scenarios.corrupt_env "data/uploads/notes.TXT"
  = ("", "notes.TXT")
  /\ (forall before after st,
        process_documents Scenarios.corrupt_env
          (before ++ "data/uploads/notes.TXT" :: after) st
        = process_documents Scenarios.corrupt_env (before ++ after) st).
Proof.
  apply (failed_reader_skips_file Scenarios.corrupt_env
           "data/uploads/notes.TXT" Scenarios.unreadable).
  right. right. right. split; reflexivity.
Defined.

(** X2.  The text of a PDF is the texts of its pages that have one, each
    followed by a line break, in page order; pages without text leave no
    trace.  A PDF none of whose pages has text (a scan) is extracted as
    the empty text and left out of the batch. *)
Theorem pdf_text_joins_pages env file_path pages :
  lower (Pathlib.suffix (Pathlib.parse file_path)) = ".pdf" ->
  pdf_pages env (Pathlib.to_str (Pathlib.parse file_path)) = Ok pages ->
  extract_text_from_file env file_path
  = (String.concat "" (map (fun t => t ++ newline) (page_texts pages)),
     Pathlib.name (Pathlib.parse file_path))
  /\ (page_texts pages = [] ->
      forall before after st,
        process_documents env (before ++ file_path :: after) st
        = process_documents env (before ++ after) st).
Proof.
  intros Hx Hp.
  assert (He : extract_text_from_file env file_path
               = (String.concat "" (map (fun t => t ++ newline) (page_texts pages)),
                  Pathlib.name (Pathlib.parse file_path))).
  { unfold extract_text_from_file. rewrite Hx. simpl.
    unfold extract_text_from_pdf. rewrite Hp, pdf_fold. reflexivity. }
  split; [exact He|].
  intros Hnone. apply blank_file_skipped. rewrite He, Hnone. reflexivity.
Qed.

Lemma pdf_text_joins_pages_witness :
  extract_text_from_file Scenarios.scanned_env "data/uploads/Scan.pdf"
  = (String.concat ""
       (map (fun t => t ++ newline) (page_texts [None; Some ""; None])),
     "Scan.pdf")
  /\ (page_texts [None; Some ""; None] = [] ->
      forall before after st,
        process_documents Scenarios.scanned_env
          (before ++ "data/uploads/Scan.pdf" :: after) st
        = process_documents Scenarios.scanned_env (before ++ after) st).
Proof.
  apply (pdf_text_joins_pages Scenarios.scanned_env "data/uploads/Scan.pdf"
           [None; Some ""; None]); reflexivity.
Defined.

(** Every collected document comes from a file of the batch that has
    text, and is tagged with that file's name. *)
Lemma collect_documents_In env file_paths d :
  In d (collect_documents env file_paths) ->
  exists file_path,
    In file_path file_paths
    /\ yields_text env file_path = true
    /\ d = mkDocument (fst (extract_text_from_file env file_path))
             [("source", Pathlib.name (Pathlib.parse file_path))].
Proof.
  induction file_paths as [|p l IH]; simpl; [intros []|].
  pose proof (extract_name env p) as Hn.
  destruct (extract_text_from_file env p) as [text filename] eqn:E; simpl in *.
  destruct (strip_nonempty text) eqn:Ht.
  - intros [<-|Hin].
    + exists p. unfold yields_text. rewrite E. subst filename.
      repeat split; auto.
    + destruct (IH Hin) as (q & Hq & Hy & Hd). exists q. auto.
  - intros Hin. destruct (IH Hin) as (q & Hq & Hy & Hd). exists q. auto.
Qed.

(** X3.  Every entry that a returning [process_documents] adds to the
    index traces back to a file of the batch that had text: it carries
    that file's name as its only metadata, so its source is never
    ["Unknown"] by default, and its text is one of the pieces the splitter
    cut from that file's text. *)
Theorem chunks_trace_to_files env file_paths st st' stats :
  process_documents env file_paths st = (st', Ok stats) ->
  exists added,
    index_entries st' = (index_entries st ++ added)%list
    /\ length added = chunks_count stats
    /\ (forall chunk,
          In chunk added ->
          exists file_path,
            In file_path file_paths
            /\ yields_text env file_path = true
            /\ metadata chunk
               = [("source", Pathlib.name (Pathlib.parse file_path))]
            /\ source_of chunk = Pathlib.name (Pathlib.parse file_path)
            /\ In (page_content chunk)
                  (split_text env (fst (extract_text_from_file env file_path)))).
Proof.
  intros H.
  destruct (proj2 (process_documents_appends _ _ _ _ _ H) stats eq_refl)
    as (He & Hc & _).
  exists (split_documents env (collect_documents env file_paths)).
  split; [exact He|]. split; [now rewrite Hc|].
  intros chunk Hin. unfold split_documents in Hin.
  apply in_flat_map in Hin. destruct Hin as (d & Hd & Hin).
  apply in_map_iff in Hin. destruct Hin as (t & <- & Ht).
  destruct (collect_documents_In _ _ _ Hd) as (p & Hp & Hy & ->).
  exists p. simpl in *. unfold source_of. simpl. auto.
Qed.

Lemma chunks_trace_to_files_witness :
  exists added,
    index_entries
      (fst (process_documents halving_env
              ["data/uploads/scan.png"; "data/uploads/b.txt"] warm_state))
    = (index_entries warm_state ++ added)%list
    /\ length added = 2
    /\ (forall chunk,
          In chunk added ->
          exists file_path,
            In file_path ["data/uploads/scan.png"; "data/uploads/b.txt"]
            /\ yields_text halving_env file_path = true
            /\ metadata chunk
               = [("source", Pathlib.name (Pathlib.parse file_path))]
            /\ source_of chunk = Pathlib.name (Pathlib.parse file_path)
            /\ In (page_content chunk)
                  (split_text halving_env
                     (fst (extract_text_from_file halving_env file_path)))).
Proof.
  apply (chunks_trace_to_files halving_env
           ["data/uploads/scan.png"; "data/uploads/b.txt"] warm_state
           _ (mkStats "success" 1 2)).
  reflexivity.
Defined.

(** X4.  The statistics of a returning [process_documents]:
    [documents_processed] counts the files of the batch that had text, at
    most the number of files, and [chunks_count] is the total of the
    numbers of pieces the splitter cut from the texts of these files. *)
Theorem stats_count_files_and_pieces env file_paths st st' stats :
  process_documents env file_paths st = (st', Ok stats) ->
  status stats = "success"
  /\ documents_processed stats = length (filter (yields_text env) file_paths)
  /\ 0 < documents_processed stats <= length file_paths
  /\ chunks_count stats
     = list_sum
         (map (fun file_path =>
                 length (split_text env
                           (fst (extract_text_from_file env file_path))))
              (filter (yields_text env) file_paths)).
Proof.
  intros H.
  destruct (proj2 (process_documents_appends _ _ _ _ _ H) stats eq_refl)
    as (_ & Hc & Hd & _).
  assert (Hst : status stats = "success"
                /\ collect_documents env file_paths <> []).
  { rewrite process_documents_unfold in H.
    destruct (collect_documents env file_paths); [discriminate|].
    cbv zeta in H.
    destruct (new_embeddings env); [|discriminate].
    destruct (embed_documents env _); [|discriminate].
    destruct (new_llm env); [|discriminate].
    inversion H; subst. split; [reflexivity|discriminate]. }
  destruct Hst as [Hs Hne].
  rewrite Hd, Hc, collect_documents_length.
  split; [exact Hs|]. split; [reflexivity|]. split.
  - split.
    + rewrite <- collect_documents_length.
      destruct (collect_documents env file_paths); [congruence|simpl; lia].
    + apply filter_length_le.
  - clear. unfold split_documents.
    induction file_paths as [|p l IH]; simpl; [reflexivity|].
    unfold yields_text at 1.
    destruct (extract_text_from_file env p) as [text filename] eqn:E; simpl.
    destruct (strip_nonempty text); simpl; [|exact IH].
    rewrite length_app, length_map, E, IH. reflexivity.
Qed.

Lemma stats_count_files_and_pieces_witness :
  status (mkStats "success" 1 2) = "success"
  /\ documents_processed (mkStats "success" 1 2)
     = length (filter (yields_text halving_env)
                 ["data/uploads/scan.png"; "data/uploads/b.txt"])
  /\ 0 < documents_processed (mkStats "success" 1 2)
       <= length ["data/uploads/scan.png"; "data/uploads/b.txt"]
  /\ chunks_count (mkStats "success" 1 2)
     = list_sum
         (map (fun file_path =>
                 length (split_text halving_env
                           (fst (extract_text_from_file halving_env file_path))))
              (filter (yields_text halving_env)
                 ["data/uploads/scan.png"; "data/uploads/b.txt"])).
Proof.
  apply (stats_count_files_and_pieces halving_env
           ["data/uploads/scan.png"; "data/uploads/b.txt"] cold_state
           (fst (process_documents halving_env
                   ["data/uploads/scan.png"; "data/uploads/b.txt"] cold_state))).
  reflexivity.
Defined.

(** X5.  When the embedding of a batch fails, [process_documents] raises
    that very exception and the batch leaves nothing behind: the entries
    of the index, the store and the chain held by the process and the
    conversation memory are what they were. *)
Theorem failed_embedding_adds_nothing env file_paths st e :
  collect_documents env file_paths <> [] ->
  new_embeddings env = Ok tt ->
  embed_documents env
    (map page_content (split_documents env (collect_documents env file_paths)))
  = Raise e ->
  exists st',
    process_documents env file_paths st = (st', Raise e)
    /\ index_entries st' = index_entries st
    /\ _vectorstore st' = _vectorstore st
    /\ _qa_chain st' = _qa_chain st
    /\ _global_memory st' = _global_memory st.
Proof.
  intros Hne Hemb Hfail. rewrite process_documents_unfold.
  destruct (collect_documents env file_paths) as [|d ds]; [congruence|].
  cbv zeta. rewrite Hemb, Hfail.
  eexists. split; [reflexivity|].
  destruct (_vectorstore st) eqn:Hv; repeat split; auto.
Qed.

Lemma failed_embedding_adds_nothing_witness :
  exists st',
    process_documents Scenarios.offline_env ["data/uploads/notes.txt"] warm_state
    = (st', Raise quota_exceeded)
    /\ index_entries st' = index_entries warm_state
    /\ _vectorstore st' = _vectorstore warm_state
    /\ _qa_chain st' = _qa_chain warm_state
    /\ _global_memory st' = _global_memory warm_state.
Proof.
  apply (failed_embedding_adds_nothing Scenarios.offline_env
           ["data/uploads/notes.txt"] warm_state quota_exceeded).
  - discriminate.
  - reflexivity.
  - reflexivity.
Defined.

End PipelineFacts.

(** ** A session of uploads and questions *)

Module SessionFacts.
Import Rag Runs Main Endpoints RagFacts IngestFacts PipelineFacts.

(** The state in which the chain is called: the one given, or the one
    with the persisted index loaded. *)
Lemma query_body_ok_state rt env question st st' r :
  query_body rt env question st = (st', Ok r) ->
  _vectorstore st <> None \/ vectorstore_dir st <> None ->
  exists result,
    chain_run env (messages st) (index_entries st) question = Ok result
    /\ r = mkQueryResult (chain_answer result)
             (set_order rt (map source_of (source_documents result)))
    /\ st' = set_global_memory
               (Some (messages st
                      ++ [HumanMessage question;
                          AIMessage (chain_answer result)])%list)
               (match _vectorstore st with
                | Some _ => st
                | None => loaded st
                end).
Proof.
  intros Hq Hidx.
  destruct (_vectorstore st) as [v|] eqn:Hv.
  - rewrite (query_body_hot _ _ _ _ _ Hv), answer_from_chain_unfold,
      call_chain_unfold in Hq.
    destruct (_qa_chain st); [|discriminate].
    destruct (chain_run env (messages st) (index_entries st) question)
      as [result|e]; [|discriminate].
    inversion Hq; subst. exists result. repeat split.
  - destruct (vectorstore_dir st) as [d|] eqn:Hd.
    + rewrite (query_body_warm _ _ _ _ _ Hv Hd) in Hq.
      destruct (new_embeddings env); [|discriminate].
      destruct (new_llm env); [|discriminate].
      rewrite answer_from_chain_unfold, call_chain_unfold in Hq.
      rewrite messages_loaded, index_entries_loaded in Hq.
      change (_qa_chain (loaded st))
        with (Some (RetrievalChain (ChromaStore VECTORSTORE_PATH) 4)) in Hq.
      destruct (chain_run env (messages st) (index_entries st) question)
        as [result|e]; [|discriminate].
      inversion Hq; subst. exists result. repeat split.
    + destruct Hidx as [H|H]; congruence.
Qed.

Lemma vectorstore_dir_loaded st d :
  vectorstore_dir st = Some d -> vectorstore_dir (loaded st) = Some d.
Proof.
  intros Hd. unfold loaded, get_memory, modify; simpl.
  unfold index_entries. rewrite Hd.
  destruct (_global_memory st); reflexivity.
Qed.

(** Without a chain, a process that holds a store answers every question
    with the message of the [TypeError]. *)
Lemma query_rag_chainless rt env question st store :
  _vectorstore st = Some store -> _qa_chain st = None ->
  query_rag rt env question st = (st, Ok (error_result not_callable)).
Proof.
  intros Hv Hc.
  rewrite query_rag_unfold, (query_body_hot _ _ _ _ _ Hv),
    answer_from_chain_unfold, call_chain_unfold, Hc.
  reflexivity.
Qed.

(** X6.  When the language model cannot be constructed at the end of an
    upload, [process_documents] raises although the chunks of the batch
    are already stored in the index.  If the process had no chain before,
    it has none afterwards, and every question asked from then on,
    whatever the collaborators do, is answered inline with "An error
    occurred: 'NoneType' object is not callable", with no sources and no
    change of state. *)
Theorem failed_chain_construction_blocks_queries env file_paths st e :
  collect_documents env file_paths <> [] ->
  new_embeddings env = Ok tt ->
  (forall texts, embed_documents env texts = Ok tt) ->
  new_llm env = Raise e ->
  _qa_chain st = None ->
  exists st',
    process_documents env file_paths st = (st', Raise e)
    /\ index_entries st'
       = (index_entries st
          ++ split_documents env (collect_documents env file_paths))%list
    /\ (forall rt env' question,
          query_rag rt env' question st'
          = (st',
             Ok (mkQueryResult
                   "An error occurred: 'NoneType' object is not callable" []))).
Proof.
  intros Hne Hemb Hadd Hllm Hc. rewrite process_documents_unfold.
  destruct (collect_documents env file_paths) as [|d ds]; [congruence|].
  cbv zeta. rewrite Hemb, Hadd, Hllm.
  eexists. split; [reflexivity|]. split; [reflexivity|].
  intros rt env' question.
  eapply query_rag_chainless; [reflexivity | exact Hc].
Qed.

Lemma failed_chain_construction_blocks_queries_witness :
  exists st',
    process_documents Scenarios.no_llm_env ["data/uploads/notes.txt"] cold_state
    = (st', Raise Scenarios.missing_key)
    /\ index_entries st'
       = (index_entries cold_state
          ++ split_documents Scenarios.no_llm_env
               (collect_documents Scenarios.no_llm_env
                  ["data/uploads/notes.txt"]))%list
    /\ (forall rt env' question,
          query_rag rt env' question st'
          = (st',
             Ok (mkQueryResult
                   "An error occurred: 'NoneType' object is not callable" []))).
Proof.
  apply (failed_chain_construction_blocks_queries Scenarios.no_llm_env
           ["data/uploads/notes.txt"] cold_state Scenarios.missing_key).
  - discriminate.
  - reflexivity.
  - reflexivity.
  - reflexivity.
  - reflexivity.
Defined.

(** X7.  A query never touches the persisted index, and it never removes
    or rewrites earlier conversation: after [query_rag] the directory
    holds what it held, and the memory holds the earlier messages followed
    either by nothing or by the question and the returned answer. *)
Theorem query_keeps_index_and_history rt env question st :
  exists st' r,
    query_rag rt env question st = (st', Ok r)
    /\ vectorstore_dir st' = vectorstore_dir st
    /\ (messages st' = messages st
        \/ messages st'
           = (messages st
              ++ [HumanMessage question; AIMessage (answer r)])%list).
Proof.
  rewrite query_rag_unfold.
  destruct (_vectorstore st) as [v|] eqn:Hv.
  - rewrite (query_body_hot _ _ _ _ _ Hv), answer_from_chain_unfold,
      call_chain_unfold.
    destruct (_qa_chain st);
      [|do 2 eexists; split; [reflexivity|split; [reflexivity|now left]]].
    destruct (chain_run env (messages st) (index_entries st) question);
      do 2 eexists; (split; [reflexivity|split; [reflexivity|]]);
      [now right | now left].
  - destruct (vectorstore_dir st) as [d|] eqn:Hd.
    + rewrite (query_body_warm _ _ _ _ _ Hv Hd).
      assert (Hidx : index_entries st = d)
        by (unfold index_entries; now rewrite Hd).
      destruct (new_embeddings env);
        [|do 2 eexists; split; [reflexivity|split; [now rewrite Hd|now left]]].
      destruct (new_llm env).
      * rewrite answer_from_chain_unfold, call_chain_unfold.
        rewrite messages_loaded, index_entries_loaded.
        change (_qa_chain (loaded st))
          with (Some (RetrievalChain (ChromaStore VECTORSTORE_PATH) 4)).
        destruct (chain_run env (messages st) (index_entries st) question);
          do 2 eexists; (split; [reflexivity|split]).
        -- cbn [vectorstore_dir set_global_memory].
           now rewrite (vectorstore_dir_loaded _ _ Hd).
        -- right. cbn [messages _global_memory set_global_memory]. reflexivity.
        -- now rewrite (vectorstore_dir_loaded _ _ Hd).
        -- left. apply messages_loaded.
      * do 2 eexists. split; [reflexivity|]. split.
        -- simpl. now rewrite Hidx.
        -- now left.
    + rewrite (query_body_cold _ _ _ _ Hv Hd).
      do 2 eexists. split; [reflexivity|]. split; [exact Hd | now left].
Qed.

(** An upload, whatever its outcome, leaves the messages alone. *)
Lemma process_documents_messages env file_paths st :
  messages (fst (process_documents env file_paths st)) = messages st.
Proof.
  rewrite process_documents_unfold.
  destruct (collect_documents env file_paths); [reflexivity|].
  cbv zeta.
  destruct (new_embeddings env); [|reflexivity].
  destruct (embed_documents env _).
  - destruct (new_llm env); [|reflexivity].
    cbn [fst]. rewrite messages_set_qa_chain, messages_get_memory.
    reflexivity.
  - destruct (_vectorstore st); reflexivity.
Qed.

(** X8.  Ingestion and reset never touch the conversation: whatever its
    outcome, [process_documents] leaves the messages of the memory as
    they were, and [reset_vectorstore] leaves the memory buffer itself
    untouched, so questions asked after a reset and a new upload are still
    answered in the light of the earlier turns. *)
Theorem ingestion_keeps_conversation st :
  (forall env file_paths,
     messages (fst (process_documents env file_paths st)) = messages st)
  /\ _global_memory (fst (reset_vectorstore st)) = _global_memory st
  /\ messages (fst (reset_vectorstore st)) = messages st.
Proof.
  split; [|split].
  - intros env file_paths. apply process_documents_messages.
  - unfold reset_vectorstore, bind, modify, get, ret; simpl.
    destruct (vectorstore_dir st); reflexivity.
  - unfold reset_vectorstore, bind, modify, get, ret; simpl.
    destruct (vectorstore_dir st); reflexivity.
Qed.

(** *** The invariant of the globals *)

Lemma consistent_set_global_memory st ms :
  consistent st -> consistent (set_global_memory (Some ms) st).
Proof.
  intros [Hc Hd]. split; simpl.
  - intros chain Hch. destruct (Hc chain Hch) as (store & Hv & Hk & _).
    exists store. repeat split; auto. discriminate.
  - exact Hd.
Qed.

Lemma consistent_get_memory st : consistent st -> consistent (fst (get_memory st)).
Proof.
  intros H. unfold get_memory, modify; simpl.
  destruct (_global_memory st); [exact H|].
  now apply consistent_set_global_memory.
Qed.

Lemma consistent_process_documents env file_paths st :
  consistent st -> consistent (fst (process_documents env file_paths st)).
Proof.
  intros Hst. pose proof Hst as [Hc Hd]. rewrite process_documents_unfold.
  destruct (collect_documents env file_paths) as [|d ds]; [exact Hst|].
  cbv zeta.
  destruct (new_embeddings env); [|exact Hst].
  destruct (embed_documents env _).
  - assert (Hstore : forall chain,
              _qa_chain st = Some chain ->
              chain = RetrievalChain
                        match _vectorstore st with
                        | Some v => v
                        | None => ChromaStore VECTORSTORE_PATH
                        end 4
              /\ _global_memory st <> None).
    { intros chain Hch. destruct (Hc chain Hch) as (store & Hv & Hk & Hm).
      rewrite Hv. auto. }
    destruct (new_llm env); cbn [fst].
    + unfold get_memory, modify; cbn [fst]; simpl.
      destruct (_global_memory st) eqn:Hm; (split; simpl;
        [ intros chain Hch; inversion Hch; subst;
          eexists; split; [reflexivity|]; split; [reflexivity|simpl; congruence]
        | intros store _; simpl; congruence ]).
    + split; simpl.
      * intros chain Hch. destruct (Hstore chain Hch) as [Hk Hm].
        eexists. split; [reflexivity|]. auto.
      * intros store _. discriminate.
  - destruct (_vectorstore st) eqn:Hv; cbn [fst].
    + exact Hst.
    + split; simpl.
      * intros chain Hch. destruct (Hc chain Hch) as (store & Hv' & _).
        congruence.
      * intros store Hs. congruence.
Qed.

Lemma consistent_loaded st : consistent (loaded st).
Proof.
  unfold loaded, get_memory, modify; cbn [fst]; simpl.
  destruct (_global_memory st) eqn:Hm; (split; simpl;
    [ intros chain Hch; inversion Hch; subst;
      eexists; split; [reflexivity|]; split; [reflexivity|simpl; congruence]
    | intros store _; simpl; congruence ]).
Qed.

Lemma consistent_query_rag rt env question st :
  consistent st -> consistent (fst (query_rag rt env question st)).
Proof.
  intros Hst. rewrite query_rag_unfold.
  destruct (_vectorstore st) as [v|] eqn:Hv.
  - rewrite (query_body_hot _ _ _ _ _ Hv), answer_from_chain_unfold,
      call_chain_unfold.
    destruct (_qa_chain st); [|exact Hst].
    destruct (chain_run env (messages st) (index_entries st) question);
      [now apply consistent_set_global_memory | exact Hst].
  - destruct (vectorstore_dir st) as [d|] eqn:Hd.
    + rewrite (query_body_warm _ _ _ _ _ Hv Hd).
      destruct (new_embeddings env); [|exact Hst].
      destruct (new_llm env).
      * rewrite answer_from_chain_unfold, call_chain_unfold.
        change (_qa_chain (loaded st))
          with (Some (RetrievalChain (ChromaStore VECTORSTORE_PATH) 4)).
        destruct (chain_run env _ _ question); cbn [fst].
        -- apply consistent_set_global_memory, consistent_loaded.
        -- apply consistent_loaded.
      * cbn [fst]. destruct Hst as [Hc _]. split; simpl.
        -- intros chain Hch. destruct (Hc chain Hch) as (store & Hv' & _).
           congruence.
        -- intros store _. discriminate.
    + rewrite (query_body_cold _ _ _ _ Hv Hd). exact Hst.
Qed.

Lemma consistent_reset st : consistent (fst (reset_vectorstore st)).
Proof.
  unfold reset_vectorstore, bind, modify, get, ret; simpl.
  destruct (vectorstore_dir st); split; simpl; intros; discriminate.
Qed.

Lemma consistent_clear_memory st :
  consistent st -> consistent (fst (clear_memory st)).
Proof.
  intros Hst. unfold clear_memory, modify; cbn [fst].
  destruct (_global_memory st); [|exact Hst].
  now apply consistent_set_global_memory.
Qed.

Lemma consistent_add_to_memory question answer st :
  consistent st -> consistent (fst (add_to_memory question answer st)).
Proof.
  intros Hst. unfold add_to_memory, bind, save_context.
  pose proof (consistent_get_memory st Hst) as Hg.
  unfold get_memory, modify in *. cbn [fst] in *.
  now apply consistent_set_global_memory.
Qed.

Lemma consistent_chat rt env message st :
  consistent st -> consistent (fst (chat rt env message st)).
Proof.
  intros Hst. unfold chat, try_except.
  destruct (strip_nonempty message); [|exact Hst].
  unfold bind, ret.
  pose proof (consistent_query_rag rt env message st Hst) as Hq.
  destruct (query_rag rt env message st) as [s1 [r|e]]; exact Hq.
Qed.

Lemma consistent_upload_files rt env save filenames st :
  consistent st -> consistent (fst (upload_files rt env save filenames st)).
Proof.
  intros Hst. unfold upload_files, try_except, bind, lift, ret.
  destruct (save_uploads rt save filenames) as [paths|e]; [|exact Hst].
  pose proof (consistent_process_documents env paths st Hst) as Hp.
  destruct (process_documents env paths st) as [s1 [r|e]]; exact Hp.
Qed.

(** X9.  The invariant of the globals holds at the start of a process and
    is kept by every operation: uploading (whether it returns or raises),
    querying, resetting the store, clearing or extending the memory, and
    the [/chat] and [/upload] endpoints.  So whenever a chain exists it is
    the chain with [k = 4] built on the store the process holds, the
    memory buffer exists, and the store's directory exists. *)
Theorem globals_stay_consistent st :
  consistent st ->
  (forall env file_paths,
     consistent (fst (process_documents env file_paths st)))
  /\ (forall rt env question, consistent (fst (query_rag rt env question st)))
  /\ consistent (fst (reset_vectorstore st))
  /\ consistent (fst (clear_memory st))
  /\ (forall question answer,
        consistent (fst (add_to_memory question answer st)))
  /\ (forall rt env message, consistent (fst (chat rt env message st)))
  /\ (forall rt env save filenames,
        consistent (fst (upload_files rt env save filenames st))).
Proof.
  intros Hst.
  split; [intros; now apply consistent_process_documents|].
  split; [intros; now apply consistent_query_rag|].
  split; [apply consistent_reset|].
  split; [now apply consistent_clear_memory|].
  split; [intros; now apply consistent_add_to_memory|].
  split; intros; [now apply consistent_chat | now apply consistent_upload_files].
Qed.

Lemma globals_stay_consistent_witness :
  consistent (fst (process_documents helpful_env ["data/uploads/notes.txt"]
                     cold_state))
  /\ consistent (fst (query_rag keep_last_order helpful_env "What is blue?"
                        cold_state)).
Proof.
  assert (Hstart : consistent cold_state)
    by (split; simpl; intros; discriminate).
  split.
  - apply (proj1 (globals_stay_consistent cold_state Hstart)).
  - apply (proj1 (proj2 (globals_stay_consistent cold_state Hstart))).
Defined.

(** What a query returns once the chain can be called on history [ms],
    in state [st]. *)
Lemma query_rag_hot rt env question st store chain :
  _vectorstore st = Some store -> _qa_chain st = Some chain ->
  query_rag rt env question st =
  match chain_run env (messages st) (index_entries st) question with
  | Ok result =>
      (set_global_memory
         (Some (messages st
                ++ [HumanMessage question; AIMessage (chain_answer result)])%list)
         st,
       Ok (mkQueryResult (chain_answer result)
             (set_order rt (map source_of (source_documents result)))))
  | Raise e => (st, Ok (error_result e))
  end.
Proof.
  intros Hv Hc.
  rewrite query_rag_unfold, (query_body_hot _ _ _ _ _ Hv),
    answer_from_chain_unfold, call_chain_unfold, Hc.
  destruct (chain_run env (messages st) (index_entries st) question);
    reflexivity.
Qed.

(** X10.  The first query of a process that finds a persisted index:
    when the embedding client and the language model can be constructed,
    the question is answered by the chain from the persisted entries and
    the history held so far, exactly as if the index had been in process
    memory, and afterwards the process holds the store and the chain; the
    persisted entries are unchanged. *)
Theorem persisted_index_is_loaded rt env question st entries :
  _vectorstore st = None ->
  vectorstore_dir st = Some entries ->
  new_embeddings env = Ok tt ->
  new_llm env = Ok tt ->
  exists st',
    query_rag rt env question st
    = (st',
       match chain_run env (messages st) entries question with
       | Ok result =>
           Ok (mkQueryResult (chain_answer result)
                 (set_order rt (map source_of (source_documents result))))
       | Raise e => Ok (error_result e)
       end)
    /\ _vectorstore st' = Some (ChromaStore VECTORSTORE_PATH)
    /\ _qa_chain st' = Some (RetrievalChain (ChromaStore VECTORSTORE_PATH) 4)
    /\ vectorstore_dir st' = Some entries.
Proof.
  intros Hv Hd Hemb Hllm.
  assert (Hidx : index_entries st = entries)
    by (unfold index_entries; now rewrite Hd).
  rewrite query_rag_unfold, (query_body_warm _ _ _ _ _ Hv Hd), Hemb, Hllm.
  rewrite answer_from_chain_unfold, call_chain_unfold.
  rewrite messages_loaded, index_entries_loaded, Hidx.
  change (_qa_chain (loaded st))
    with (Some (RetrievalChain (ChromaStore VECTORSTORE_PATH) 4)).
  pose proof (vectorstore_dir_loaded _ _ Hd) as Hl.
  assert (Hvs : _vectorstore (loaded st) = Some (ChromaStore VECTORSTORE_PATH)).
  { unfold loaded, get_memory, modify; simpl.
    destruct (_global_memory st); reflexivity. }
  destruct (chain_run env (messages st) entries question);
    eexists; (split; [reflexivity|]); repeat split; auto.
Qed.

Lemma persisted_index_is_loaded_witness :
  exists st',
    query_rag keep_last_order helpful_env "What colour is the sky?"
      restarted_state
    = (st',
       match chain_run helpful_env (messages restarted_state)
               [doc_from "old.txt" "kept from an earlier run"]
               "What colour is the sky?" with
       | Ok result =>
           Ok (mkQueryResult (chain_answer result)
                 (set_order keep_last_order
                    (map source_of (source_documents result))))
       | Raise e => Ok (error_result e)
       end)
    /\ _vectorstore st' = Some (ChromaStore VECTORSTORE_PATH)
    /\ _qa_chain st' = Some (RetrievalChain (ChromaStore VECTORSTORE_PATH) 4)
    /\ vectorstore_dir st' = Some [doc_from "old.txt" "kept from an earlier run"].
Proof.
  apply (persisted_index_is_loaded keep_last_order helpful_env
           "What colour is the sky?" restarted_state
           [doc_from "old.txt" "kept from an earlier run"]); reflexivity.
Defined.

(** X11.  Memory continuity.  After a question has been answered by the
    chain, the next question, whatever it is and whatever the
    collaborators then do, is put to the chain with the earlier history
    followed by that question and its answer, on the same index; if the
    chain answers again, this second turn is appended after the first. *)
Theorem next_query_sees_previous_turn rt env1 question1 st store chain result1 :
  _vectorstore st = Some store ->
  _qa_chain st = Some chain ->
  chain_run env1 (messages st) (index_entries st) question1 = Ok result1 ->
  let st1 := fst (query_rag rt env1 question1 st) in
  let history :=
    (messages st
     ++ [HumanMessage question1; AIMessage (chain_answer result1)])%list in
  messages st1 = history
  /\ (forall env2 question2,
        query_rag rt env2 question2 st1 =
        match chain_run env2 history (index_entries st) question2 with
        | Ok result2 =>
            (set_global_memory
               (Some (history
                      ++ [HumanMessage question2;
                          AIMessage (chain_answer result2)])%list)
               st1,
             Ok (mkQueryResult (chain_answer result2)
                   (set_order rt (map source_of (source_documents result2)))))
        | Raise e => (st1, Ok (error_result e))
        end).
Proof.
  intros Hv Hc Hrun. cbv zeta.
  rewrite (query_rag_hot _ _ _ _ _ _ Hv Hc), Hrun. cbn [fst].
  split; [reflexivity|].
  intros env2 question2.
  rewrite (query_rag_hot rt env2 question2 _ store chain); [reflexivity| |];
    simpl; assumption.
Qed.

Lemma next_query_sees_previous_turn_witness :
  exists st2,
    query_rag keep_last_order Scenarios.counting_env "And the grass?"
      (fst (query_rag keep_last_order Scenarios.counting_env
              "What colour is the sky?" warm_state))
    = (st2, Ok (mkQueryResult "some earlier turn" []))
    /\ messages st2
       = [HumanMessage "What colour is the sky?"; AIMessage "no earlier turn";
          HumanMessage "And the grass?"; AIMessage "some earlier turn"].
Proof.
  eexists.
  rewrite (proj2 (next_query_sees_previous_turn keep_last_order
                    Scenarios.counting_env "What colour is the sky?" warm_state
                    (ChromaStore VECTORSTORE_PATH)
                    (RetrievalChain (ChromaStore VECTORSTORE_PATH) 4)
                    (mkChainResult "no earlier turn" [])
                    eq_refl eq_refl eq_refl)
             Scenarios.counting_env "And the grass?").
  split; reflexivity.
Defined.

(** X12.  [clear_memory] forgets the conversation and nothing else: the
    memory then holds no message while the store, the chain and the
    persisted index are untouched, and when no buffer exists yet none is
    created.  The chain shares the buffer, so the next question is put to
    it with an empty history.  The [/clear] endpoint does exactly this and
    always reports success. *)
Theorem clear_memory_forgets_conversation st :
  let st' := fst (clear_memory st) in
  messages st' = []
  /\ _vectorstore st' = _vectorstore st
  /\ _qa_chain st' = _qa_chain st
  /\ vectorstore_dir st' = vectorstore_dir st
  /\ (_global_memory st = None -> st' = st)
  /\ clear_conversation st = (st', Ok ("success", "Conversation memory cleared"))
  /\ (forall rt env question store chain,
        _vectorstore st = Some store ->
        _qa_chain st = Some chain ->
        query_rag rt env question st' =
        match chain_run env [] (index_entries st) question with
        | Ok result =>
            (set_global_memory
               (Some [HumanMessage question; AIMessage (chain_answer result)])
               st',
             Ok (mkQueryResult (chain_answer result)
                   (set_order rt (map source_of (source_documents result)))))
        | Raise e => (st', Ok (error_result e))
        end).
Proof.
  cbv zeta.
  assert (Hm : messages (fst (clear_memory st)) = []).
  { unfold clear_memory, modify, messages; simpl.
    destruct (_global_memory st) eqn:E; simpl; [reflexivity|now rewrite E]. }
  assert (Hrest : _vectorstore (fst (clear_memory st)) = _vectorstore st
                  /\ _qa_chain (fst (clear_memory st)) = _qa_chain st
                  /\ vectorstore_dir (fst (clear_memory st)) = vectorstore_dir st).
  { unfold clear_memory, modify; simpl.
    destruct (_global_memory st); repeat split. }
  destruct Hrest as (Hv & Hc & Hd).
  split; [exact Hm|]. split; [exact Hv|]. split; [exact Hc|].
  split; [exact Hd|]. split; [|split].
  - intros Hn. unfold clear_memory, modify; simpl. now rewrite Hn.
  - reflexivity.
  - intros rt env question store chain Hvs Hch.
    rewrite (query_rag_hot rt env question _ store chain) by congruence.
    rewrite Hm. unfold index_entries at 1. rewrite Hd. reflexivity.
Qed.

(** One call of [add_to_memory], whether or not the buffer existed. *)
Lemma add_to_memory_unfold question answer st :
  add_to_memory question answer st
  = (set_global_memory
       (Some (messages st ++ [HumanMessage question; AIMessage answer])%list)
       st,
     Ok tt).
Proof.
  unfold add_to_memory, bind, get_memory, save_context, modify, messages.
  simpl. destruct (_global_memory st) eqn:E; simpl; rewrite ?E; reflexivity.
Qed.

(** The messages after successive calls of [add_to_memory]. *)
Lemma add_all_to_memory_messages turns : forall st,
  exists st',
    add_all_to_memory turns st = (st', Ok tt)
    /\ messages st' = (messages st ++ turn_messages turns)%list
    /\ _vectorstore st' = _vectorstore st
    /\ _qa_chain st' = _qa_chain st
    /\ vectorstore_dir st' = vectorstore_dir st.
Proof.
  induction turns as [|[question answer] rest IH]; intros st.
  - exists st. simpl. rewrite app_nil_r. repeat split.
  - simpl. unfold bind at 1. rewrite add_to_memory_unfold.
    match goal with
    | |- context [add_all_to_memory rest ?s] =>
        destruct (IH s) as (st' & Hrun & Hm & Hv & Hc & Hd)
    end.
    exists st'. rewrite Hrun. split; [reflexivity|].
    rewrite Hm, Hv, Hc, Hd. simpl.
    change (messages
              (set_global_memory
                 (Some (messages st
                        ++ [HumanMessage question; AIMessage answer])%list) st))
      with (messages st ++ [HumanMessage question; AIMessage answer])%list.
    rewrite <- app_assoc. repeat split.
Qed.

(** X13.  [add_to_memory] records turns in order and loses none: after
    any number of calls the conversation history is the earlier messages
    followed by each question and its answer, in the order of the calls,
    so it has grown by two messages per call; the buffer is created when
    it did not exist, and the store, the chain and the index are
    untouched.  [get_conversation_history] then returns exactly that
    list. *)
Theorem add_to_memory_appends_in_order turns st :
  exists st',
    add_all_to_memory turns st = (st', Ok tt)
    /\ get_conversation_history st'
       = (fst (get_memory st'),
          Ok (messages st ++ turn_messages turns)%list)
    /\ length (messages st') = length (messages st) + 2 * length turns
    /\ _vectorstore st' = _vectorstore st
    /\ _qa_chain st' = _qa_chain st
    /\ vectorstore_dir st' = vectorstore_dir st.
Proof.
  destruct (add_all_to_memory_messages turns st)
    as (st' & Hrun & Hm & Hv & Hc & Hd).
  exists st'. split; [exact Hrun|]. split; [|split; [|auto]].
  - unfold get_conversation_history, bind, get, ret.
    pose proof (messages_get_memory st') as Hg.
    unfold get_memory, modify in *. cbn [fst] in *.
    now rewrite Hg, Hm.
  - rewrite Hm, length_app. f_equal. clear.
    induction turns as [|t rest IH]; simpl; [reflexivity|]. rewrite IH. lia.
Qed.

End SessionFacts.

(** ** The endpoints *)

Module EndpointFacts.
Import Rag Runs Main Endpoints RagFacts IngestFacts PipelineFacts SessionFacts.
Import ExtractFacts.

Example health_of_talkative_state :
  snd (health_check ["a.txt"; "b.txt"; "scan.png"] Scenarios.talkative_state)
  = Ok (mkHealth "healthy" true 2 3).
Proof. reflexivity. Qed.

(** X14.  After an upload that returns, the process is ready to answer:
    it holds a store and a chain, and the next question is put to the
    chain with the conversation held before the upload and with the index
    extended by the chunks of the batch. *)
Theorem upload_then_query env file_paths st st1 stats :
  process_documents env file_paths st = (st1, Ok stats) ->
  _vectorstore st1 <> None
  /\ _qa_chain st1 <> None
  /\ (forall rt env2 question,
        query_rag rt env2 question st1 =
        match chain_run env2 (messages st)
                (index_entries st
                 ++ split_documents env (collect_documents env file_paths))%list
                question with
        | Ok result =>
            (set_global_memory
               (Some (messages st
                      ++ [HumanMessage question;
                          AIMessage (chain_answer result)])%list)
               st1,
             Ok (mkQueryResult (chain_answer result)
                   (set_order rt (map source_of (source_documents result)))))
        | Raise e => (st1, Ok (error_result e))
        end).
Proof.
  intros H.
  pose proof (process_documents_messages env file_paths st) as Hm.
  rewrite H in Hm. cbn [fst] in Hm.
  destruct (proj2 (process_documents_appends _ _ _ _ _ H) stats eq_refl)
    as (He & _).
  assert (Hready : exists store chain,
            _vectorstore st1 = Some store /\ _qa_chain st1 = Some chain).
  { rewrite process_documents_unfold in H.
    destruct (collect_documents env file_paths); [discriminate|].
    cbv zeta in H.
    destruct (new_embeddings env); [|discriminate].
    destruct (embed_documents env _); [|discriminate].
    destruct (new_llm env); [|discriminate].
    inversion H; subst. unfold get_memory, modify; simpl.
    do 2 eexists.
    destruct (_global_memory st); split; reflexivity. }
  destruct Hready as (store & chain & Hv & Hc).
  split; [congruence|]. split; [congruence|].
  intros rt env2 question.
  rewrite (query_rag_hot _ _ _ _ _ _ Hv Hc), Hm, He. reflexivity.
Qed.

Lemma upload_then_query_witness :
  exists st2,
    query_rag keep_last_order helpful_env "What colour is the sky?"
      (fst (process_documents helpful_env ["data/uploads/notes.txt"] cold_state))
    = (st2, Ok (mkQueryResult "The sky is blue." ["b.txt"; "a.txt"]))
    /\ messages st2
       = [HumanMessage "What colour is the sky?"; AIMessage "The sky is blue."].
Proof.
  eexists.
  rewrite (proj2 (proj2
    (upload_then_query helpful_env ["data/uploads/notes.txt"] cold_state
       (fst (process_documents helpful_env ["data/uploads/notes.txt"] cold_state))
       (mkStats "success" 1 1) eq_refl))
    keep_last_order helpful_env "What colour is the sky?").
  split; reflexivity.
Defined.

(** X15.  The [/chat] endpoint.  A message with a character that is not
    white space always gets a response, whatever the collaborators do: the
    answer and the sources of [query_rag].  An empty or blank message is
    refused without the pipeline being called and without any change of
    state; the status 400 raised for it is caught by the endpoint's own
    handler, so the caller sees status 500 with the detail
    "400: Message cannot be empty". *)
Theorem chat_answers_or_refuses rt env message st :
  (strip_nonempty message = true ->
   exists st' r,
     query_rag rt env message st = (st', Ok r)
     /\ chat rt env message st
        = (st', Ok (mkChatResponse (answer r) (sources r))))
  /\ (strip_nonempty message = false ->
      chat rt env message st
      = (st, Raise (mkExn "HTTPException"
                      "500: 400: Message cannot be empty"))).
Proof.
  split; intros Hb; unfold chat, try_except; rewrite Hb; [|reflexivity].
  unfold bind, ret. rewrite query_rag_unfold.
  destruct (query_body rt env message st) as [s1 [r|e]];
    do 2 eexists; split; reflexivity.
Qed.

Lemma chat_answers_or_refuses_witness :
  (exists st' r,
     query_rag keep_last_order failing_env "What colour is the sky?" warm_state
     = (st', Ok r)
     /\ chat keep_last_order failing_env "What colour is the sky?" warm_state
        = (st', Ok (mkChatResponse (answer r) (sources r))))
  /\ chat keep_last_order helpful_env "   " warm_state
     = (warm_state,
        Raise (mkExn "HTTPException" "500: 400: Message cannot be empty")).
Proof.
  split.
  - apply (proj1 (chat_answers_or_refuses keep_last_order failing_env
                    "What colour is the sky?" warm_state)).
    reflexivity.
  - apply (proj2 (chat_answers_or_refuses keep_last_order helpful_env
                    "   " warm_state)).
    reflexivity.
Defined.


(** When the loop completes, every file was valid and was saved at its
    path under the rule of [saved_path], in order. *)
Lemma save_uploads_ok rt save filenames paths :
  save_uploads rt save filenames = Ok paths ->
  paths = map saved_path filenames
  /\ forallb upload_allowed filenames = true.
Proof.
  revert paths. induction filenames as [|f l IH]; simpl; intros paths H.
  - inversion H. auto.
  - destruct (upload_allowed f); [|discriminate].
    destruct (save (saved_path f)); [|discriminate].
    destruct (save_uploads rt save l) as [ps|]; [|discriminate].
    inversion H; subst. destruct (IH ps eq_refl) as [-> Ha]. auto.
Qed.





Lemma lower_empty s : lower s = "" -> s = "".
Proof. destruct s; [reflexivity|discriminate]. Qed.

Lemma allowed_has_name filename :
  upload_allowed filename = true ->
  Pathlib.name (Pathlib.parse filename) <> "".
Proof.
  intros Ha. apply suffix_name_nonempty. intros Hs.
  unfold upload_allowed, file_ext in Ha. rewrite Hs in Ha. discriminate.
Qed.

(** X17.  The response of an upload that returns: every file of the
    request was of an allowed type, [files_uploaded] is the number of
    files of the request (those that yielded no text included), [files]
    lists their own names in the order of the request, and
    [chunks_created] is the number of entries by which the index has
    grown. *)
Theorem upload_response_lists_files rt env save filenames st st' resp :
  upload_files rt env save filenames st = (st', Ok resp) ->
  forallb upload_allowed filenames = true
  /\ upload_status resp = "success"
  /\ files_uploaded resp = length filenames
  /\ files resp = map (fun f => Pathlib.name (Pathlib.parse f)) filenames
  /\ index_size st' = index_size st + chunks_created resp.
Proof.
  unfold upload_files, try_except, bind, lift, ret. intros H.
  destruct (save_uploads rt save filenames) as [paths|e] eqn:Hs; [|discriminate].
  destruct (save_uploads_ok _ _ _ _ Hs) as [-> Ha].
  destruct (process_documents env (map saved_path filenames) st)
    as [s1 [stats|e]] eqn:Hp; [|discriminate].
  inversion H; subst; simpl.
  destruct (proj2 (process_documents_appends _ _ _ _ _ Hp) stats eq_refl)
    as (He & Hc & _).
  split; [exact Ha|]. split; [reflexivity|]. split; [apply length_map|].
  split.
  - rewrite map_map. apply map_ext_in. intros f Hin.
    apply saved_path_name, allowed_has_name.
    rewrite forallb_forall in Ha. now apply Ha.
  - unfold index_size. rewrite He, length_app, Hc. reflexivity.
Qed.

Lemma upload_response_lists_files_witness :
  forallb upload_allowed ["scan.png"; "/srv/in/notes.txt"] = true
  /\ upload_status
       (mkUploadResponse "success" 2 ["scan.png"; "notes.txt"] 1
          "Documents processed and indexed successfully") = "success"
  /\ files_uploaded
       (mkUploadResponse "success" 2 ["scan.png"; "notes.txt"] 1
          "Documents processed and indexed successfully")
     = length ["scan.png"; "/srv/in/notes.txt"]
  /\ files
       (mkUploadResponse "success" 2 ["scan.png"; "notes.txt"] 1
          "Documents processed and indexed successfully")
     = map (fun f => Pathlib.name (Pathlib.parse f))
         ["scan.png"; "/srv/in/notes.txt"]
  /\ index_size
       (fst (upload_files keep_last_order helpful_env (fun _ => Ok tt)
               ["scan.png"; "/srv/in/notes.txt"] cold_state))
     = index_size cold_state
       + chunks_created
           (mkUploadResponse "success" 2 ["scan.png"; "notes.txt"] 1
              "Documents processed and indexed successfully").
Proof.
  apply (upload_response_lists_files keep_last_order helpful_env
           (fun _ => Ok tt) ["scan.png"; "/srv/in/notes.txt"] cold_state).
  reflexivity.
Defined.

(** X18.  Where an upload is written.  A file name that starts with a
    slash replaces the upload directory altogether: the file is saved at
    the name's own rooted path.  Any other name is saved under
    [data/uploads], followed by the name's own components (a [..] among
    them is kept). *)
Theorem saved_path_follows_filename filename :
  (Pathlib.starts_with_slash filename = true ->
   Pathlib.parse (saved_path filename) = Pathlib.parse filename
   /\ Pathlib.anchored (Pathlib.parse (saved_path filename)) = true)
  /\ (Pathlib.starts_with_slash filename = false ->
      Pathlib.parse (saved_path filename)
      = Pathlib.mkPath false
          ("data" :: "uploads" :: Pathlib.parts (Pathlib.parse filename))).
Proof.
  assert (Hround : Pathlib.parse (saved_path filename)
                   = Pathlib.join UPLOAD_DIR filename).
  { unfold saved_path. apply parse_to_str, join_clean, parse_clean. }
  rewrite Hround. unfold Pathlib.join.
  change (Pathlib.anchored (Pathlib.parse filename))
    with (Pathlib.starts_with_slash filename).
  split; intros Hs; rewrite Hs; [|reflexivity].
  split; [reflexivity | exact Hs].
Qed.

Lemma saved_path_follows_filename_witness :
  (Pathlib.parse (saved_path "/etc/cron.d/job.txt")
   = Pathlib.parse "/etc/cron.d/job.txt"
   /\ Pathlib.anchored (Pathlib.parse (saved_path "/etc/cron.d/job.txt")) = true)
  /\ Pathlib.parse (saved_path "../notes.txt")
     = Pathlib.mkPath false
         ("data" :: "uploads" :: Pathlib.parts (Pathlib.parse "../notes.txt")).
Proof.
  split.
  - apply (proj1 (saved_path_follows_filename "/etc/cron.d/job.txt")).
    reflexivity.
  - apply (proj2 (saved_path_follows_filename "../notes.txt")).
    reflexivity.
Defined.

(** X19.  The [/report] endpoint.  When importing the report generator
    fails, the endpoint fails with status 500 and the import error's text,
    and touches nothing.  Otherwise, with no message in the conversation
    the generator is never called: whatever it is, the endpoint fails, and
    since the handler catches its own 400 the caller sees status 500 with
    the detail "400: No conversation history to generate report"; with a
    conversation, the generator receives the whole history in order, and
    its failure becomes a status 500 carrying the failure's text.  So an
    empty conversation never yields a report, and in every case the
    conversation is left as it was. *)
Theorem report_needs_conversation import_generator st :
  (forall e,
     import_generator = Raise e ->
     generate_report import_generator st
     = (st, Raise (http_exception "500" (exn_msg e))))
  /\ (forall create_report_pdf,
        import_generator = Ok create_report_pdf ->
        messages st = [] ->
        generate_report import_generator st
        = (fst (get_memory st),
           Raise (mkExn "HTTPException"
                    "500: 400: No conversation history to generate report")))
  /\ (forall create_report_pdf,
        import_generator = Ok create_report_pdf ->
        messages st <> [] ->
        generate_report import_generator st
        = (st,
           match create_report_pdf (messages st) with
           | Ok report_path => Ok report_path
           | Raise e => Raise (http_exception "500" (exn_msg e))
           end))
  /\ (messages st = [] ->
      exists detail,
        snd (generate_report import_generator st)
        = Raise (http_exception "500" detail))
  /\ messages (fst (generate_report import_generator st)) = messages st.
Proof.
  assert (Hg : messages (fst (get_memory st)) = messages st)
    by apply messages_get_memory.
  assert (H0 : forall e,
             generate_report (Raise e) st
             = (st, Raise (http_exception "500" (exn_msg e))))
    by reflexivity.
  assert (H1 : forall create_report_pdf,
             messages st = [] ->
             generate_report (Ok create_report_pdf) st
             = (fst (get_memory st),
                Raise (mkExn "HTTPException"
                  "500: 400: No conversation history to generate report"))).
  { intros create_report_pdf Hm.
    unfold generate_report, try_except, bind, lift, get.
    unfold get_memory, modify in *. cbn [fst] in *.
    rewrite Hg, Hm. reflexivity. }
  assert (H2 : forall create_report_pdf,
             messages st <> [] ->
             generate_report (Ok create_report_pdf) st
             = (st,
                match create_report_pdf (messages st) with
                | Ok report_path => Ok report_path
                | Raise e => Raise (http_exception "500" (exn_msg e))
                end)).
  { intros create_report_pdf Hm.
    unfold generate_report, try_except, bind, lift, get.
    unfold get_memory, modify. cbn [fst].
    assert (Hsame : (match _global_memory st with
                     | Some _ => st
                     | None => set_global_memory (Some []) st
                     end) = st).
    { destruct (_global_memory st) eqn:E; [reflexivity|].
      elim Hm. unfold messages. now rewrite E. }
    rewrite Hsame.
    destruct (messages st) as [|m ms]; [congruence|].
    destruct (create_report_pdf (m :: ms)); reflexivity. }
  split; [intros e ->; apply H0|].
  split; [intros c ->; apply H1|].
  split; [intros c ->; apply H2|].
  split.
  - intros Hm. destruct import_generator as [create_report_pdf|e].
    + rewrite (H1 _ Hm). eexists. reflexivity.
    + rewrite H0. eexists. reflexivity.
  - destruct import_generator as [create_report_pdf|e]; [|now rewrite H0].
    assert (Hcase : messages st = [] \/ messages st <> [])
      by (destruct (messages st); [left|right]; congruence).
    destruct Hcase as [Hm|Hm].
    + rewrite (H1 _ Hm). exact Hg.
    + rewrite (H2 _ Hm). reflexivity.
Qed.

Lemma report_needs_conversation_witness :
  generate_report (Raise Scenarios.missing_module) Scenarios.talkative_state
  = (Scenarios.talkative_state,
     Raise (http_exception "500" "No module named 'report_generator'"))
  /\ generate_report (Ok (fun _ => Ok "data/report.pdf")) warm_state
     = (fst (get_memory warm_state),
        Raise (mkExn "HTTPException"
                 "500: 400: No conversation history to generate report"))
  /\ generate_report (Ok (fun _ => Ok "data/report.pdf"))
       Scenarios.talkative_state
     = (Scenarios.talkative_state, Ok "data/report.pdf")
  /\ exists detail,
       snd (generate_report (Raise Scenarios.missing_module) warm_state)
       = Raise (http_exception "500" detail).
Proof.
  split; [|split; [|split]].
  - apply (proj1 (report_needs_conversation
                    (Raise Scenarios.missing_module)
                    Scenarios.talkative_state)
             Scenarios.missing_module).
    reflexivity.
  - apply (proj1 (proj2 (report_needs_conversation
                           (Ok (fun _ => Ok "data/report.pdf")) warm_state))
             (fun _ => Ok "data/report.pdf")); reflexivity.
  - apply (proj1 (proj2 (proj2 (report_needs_conversation
                                  (Ok (fun _ => Ok "data/report.pdf"))
                                  Scenarios.talkative_state)))
             (fun _ => Ok "data/report.pdf")); [reflexivity|discriminate].
  - apply (proj1 (proj2 (proj2 (proj2 (report_needs_conversation
                                         (Raise Scenarios.missing_module)
                                         warm_state))))).
    reflexivity.
Defined.

(** X20.  Uploading in one batch or in two makes no difference to the
    index: if a batch of files and its two halves, uploaded one after the
    other with the same collaborators, all return, then the index holds
    the same entries in the same order either way, and the chunk count of
    the whole batch is the sum of the chunk counts of the halves. *)
Theorem one_batch_or_two env first second st st12 s12 st1 s1 st2 s2 :
  process_documents env (first ++ second) st = (st12, Ok s12) ->
  process_documents env first st = (st1, Ok s1) ->
  process_documents env second st1 = (st2, Ok s2) ->
  index_entries st12 = index_entries st2
  /\ chunks_count s12 = chunks_count s1 + chunks_count s2
  /\ documents_processed s12 = documents_processed s1 + documents_processed s2.
Proof.
  intros H12 H1 H2.
  destruct (proj2 (process_documents_appends _ _ _ _ _ H12) s12 eq_refl)
    as (He12 & Hc12 & Hd12 & _).
  destruct (proj2 (process_documents_appends _ _ _ _ _ H1) s1 eq_refl)
    as (He1 & Hc1 & Hd1 & _).
  destruct (proj2 (process_documents_appends _ _ _ _ _ H2) s2 eq_refl)
    as (He2 & Hc2 & Hd2 & _).
  assert (Hsplit : split_documents env (collect_documents env (first ++ second))
                   = (split_documents env (collect_documents env first)
                      ++ split_documents env (collect_documents env second))%list).
  { rewrite collect_documents_app. unfold split_documents.
    apply flat_map_app. }
  split; [|split].
  - rewrite He12, He2, He1, Hsplit. apply app_assoc.
  - rewrite Hc12, Hc1, Hc2, Hsplit. apply length_app.
  - rewrite Hd12, Hd1, Hd2, collect_documents_app. apply length_app.
Qed.

Lemma one_batch_or_two_witness :
  index_entries
    (fst (process_documents halving_env
            (["data/uploads/a.txt"] ++ ["data/uploads/scan.png"; "data/uploads/b.txt"])
            cold_state))
  = index_entries
      (fst (process_documents halving_env
              ["data/uploads/scan.png"; "data/uploads/b.txt"]
              (fst (process_documents halving_env ["data/uploads/a.txt"]
                      cold_state))))
  /\ chunks_count (mkStats "success" 2 4)
     = chunks_count (mkStats "success" 1 2) + chunks_count (mkStats "success" 1 2)
  /\ documents_processed (mkStats "success" 2 4)
     = documents_processed (mkStats "success" 1 2)
       + documents_processed (mkStats "success" 1 2).
Proof.
  eapply (one_batch_or_two halving_env
            ["data/uploads/a.txt"]
            ["data/uploads/scan.png"; "data/uploads/b.txt"]
            cold_state
            _ (mkStats "success" 2 4)
            _ (mkStats "success" 1 2)
            _ (mkStats "success" 1 2)); reflexivity.
Defined.

End EndpointFacts.
